(** * Eco.Miner: the accrual ledger behind the request handlers

    A shallow embedding of the server-side handlers of the Eco.Miner
    application (the Hono application in [src/unnamed/part_000]):
    mining-status, watch-ad, apply-referral, check-referral-bonus,
    deposit-boost and request-withdrawal.

    Conventions of the embedding.
    - Timestamps are the integers of milliseconds that [Date.now()] returns
      ([Z]).  Counters ([adsWatchedToday], [depositBoostCap],
      [referralCount]) are integers as well.
    - Currency amounts and rates are JavaScript numbers in the source.  They
      are modelled as exact rationals in canonical form ([Qc]), so that
      equality of records is plain equality; rounding of IEEE doubles is not
      modelled.
    - A handler is a function from the store to the store after the call
      and the response, written in a small state-and-error monad. *)

From Stdlib Require Import ZArith QArith Qcanon Qround Lia.
From stdpp Require Import base strings gmap pretty.

Local Open Scope Z_scope.

(** ** Numbers *)

(** An integer used as a JavaScript number. *)
Definition num (z : Z) : Qc := Qc_of_Z z.

(** A decimal literal [n / d]. *)
Definition lit (n : Z) (d : positive) : Qc := Q2Qc (n # d).

(** [a <= b] and [a < b] on numbers, as booleans. *)
Definition Qcleb (a b : Qc) : bool := Qle_bool a b.
Definition Qcltb (a b : Qc) : bool := negb (Qle_bool b a).

(** [Math.floor] and [Math.ceil]. *)
Definition Math_floor (q : Qc) : Z := Qfloor q.
Definition Math_ceil (q : Qc) : Z := Qceiling q.

(** The literals of the source, under the names the specification gives
    them.  [0.0000001] is the per-ad increment of watch-ad (line 236),
    [0.000003] the referee bonus (line 297), [0.000002] the amount added to
    the referrer in apply-referral (line 300), [0.05] the one-time referrer
    credit (line 336). *)
Definition AD_BOOST_INCREMENT : Qc := lit 1 10000000.
Definition REFEREE_BONUS_RATE : Qc := lit 3 1000000.
Definition REFERRER_RATE_BONUS : Qc := lit 2 1000000.
Definition REFERRER_MINING_BONUS : Qc := lit 5 100.
Definition REFERRAL_AD_THRESHOLD : Z := 3.
Definition MINIMUM_DEPOSIT : Qc := num 2.
Definition MINIMUM_WITHDRAWAL : Qc := num 100.
Definition DAY_MS : Z := 24 * 60 * 60 * 1000.

(** Truthiness of a JavaScript string: every string but the empty one. *)
Definition truthy (s : string) : bool :=
  match s with
  | EmptyString => false
  | String _ _ => true
  end.

(** Truthiness of a value that is [null] or a string. *)
Definition truthy_opt (o : option string) : bool :=
  match o with
  | Some s => truthy s
  | None => false
  end.

(** The string a truthy value of that kind holds. *)
Definition str_of (o : option string) : string :=
  match o with
  | Some s => s
  | None => EmptyString
  end.

(** [String.prototype.toUpperCase], on the ASCII letters. *)
Definition upper_ascii (c : Ascii.ascii) : Ascii.ascii :=
  let n := Ascii.nat_of_ascii c in
  if (Nat.leb 97 n && Nat.leb n 122)%bool then Ascii.ascii_of_nat (n - 32) else c.

Fixpoint toUpperCase (s : string) : string :=
  match s with
  | EmptyString => EmptyString
  | String c r => String (upper_ascii c) (toUpperCase r)
  end.

(** ** Data model *)

(** The user record written by the signup handler (lines 104-123). *)
Record User := mkUser {
  userId : string;
  email : string;
  name : string;
  balance : Qc;
  totalMined : Qc;
  baseMiningRate : Qc;
  currentMiningRate : Qc;
  adsWatchedToday : Z;
  lastAdWatchTime : Z;
  lastResetTime : Z;
  miningStartTime : Z;
  referralCode : string;
  referredBy : option string;
  referralCount : Z;
  depositBoostCap : Z;
  createdAt : Z;
  canWithdraw : bool;
  withdrawEligibleAt : Z
}.

(** Field assignments [userData.f = v]. *)
Definition set_balance (v : Qc) (u : User) : User :=
  mkUser (userId u) (email u) (name u) v (totalMined u) (baseMiningRate u)
    (currentMiningRate u) (adsWatchedToday u) (lastAdWatchTime u)
    (lastResetTime u) (miningStartTime u) (referralCode u) (referredBy u)
    (referralCount u) (depositBoostCap u) (createdAt u) (canWithdraw u)
    (withdrawEligibleAt u).

Definition set_totalMined (v : Qc) (u : User) : User :=
  mkUser (userId u) (email u) (name u) (balance u) v (baseMiningRate u)
    (currentMiningRate u) (adsWatchedToday u) (lastAdWatchTime u)
    (lastResetTime u) (miningStartTime u) (referralCode u) (referredBy u)
    (referralCount u) (depositBoostCap u) (createdAt u) (canWithdraw u)
    (withdrawEligibleAt u).

Definition set_currentMiningRate (v : Qc) (u : User) : User :=
  mkUser (userId u) (email u) (name u) (balance u) (totalMined u)
    (baseMiningRate u) v (adsWatchedToday u) (lastAdWatchTime u)
    (lastResetTime u) (miningStartTime u) (referralCode u) (referredBy u)
    (referralCount u) (depositBoostCap u) (createdAt u) (canWithdraw u)
    (withdrawEligibleAt u).

Definition set_adsWatchedToday (v : Z) (u : User) : User :=
  mkUser (userId u) (email u) (name u) (balance u) (totalMined u)
    (baseMiningRate u) (currentMiningRate u) v (lastAdWatchTime u)
    (lastResetTime u) (miningStartTime u) (referralCode u) (referredBy u)
    (referralCount u) (depositBoostCap u) (createdAt u) (canWithdraw u)
    (withdrawEligibleAt u).

Definition set_lastAdWatchTime (v : Z) (u : User) : User :=
  mkUser (userId u) (email u) (name u) (balance u) (totalMined u)
    (baseMiningRate u) (currentMiningRate u) (adsWatchedToday u) v
    (lastResetTime u) (miningStartTime u) (referralCode u) (referredBy u)
    (referralCount u) (depositBoostCap u) (createdAt u) (canWithdraw u)
    (withdrawEligibleAt u).

Definition set_lastResetTime (v : Z) (u : User) : User :=
  mkUser (userId u) (email u) (name u) (balance u) (totalMined u)
    (baseMiningRate u) (currentMiningRate u) (adsWatchedToday u)
    (lastAdWatchTime u) v (miningStartTime u) (referralCode u) (referredBy u)
    (referralCount u) (depositBoostCap u) (createdAt u) (canWithdraw u)
    (withdrawEligibleAt u).

Definition set_miningStartTime (v : Z) (u : User) : User :=
  mkUser (userId u) (email u) (name u) (balance u) (totalMined u)
    (baseMiningRate u) (currentMiningRate u) (adsWatchedToday u)
    (lastAdWatchTime u) (lastResetTime u) v (referralCode u) (referredBy u)
    (referralCount u) (depositBoostCap u) (createdAt u) (canWithdraw u)
    (withdrawEligibleAt u).

Definition set_referredBy (v : option string) (u : User) : User :=
  mkUser (userId u) (email u) (name u) (balance u) (totalMined u)
    (baseMiningRate u) (currentMiningRate u) (adsWatchedToday u)
    (lastAdWatchTime u) (lastResetTime u) (miningStartTime u)
    (referralCode u) v (referralCount u) (depositBoostCap u) (createdAt u)
    (canWithdraw u) (withdrawEligibleAt u).

Definition set_referralCount (v : Z) (u : User) : User :=
  mkUser (userId u) (email u) (name u) (balance u) (totalMined u)
    (baseMiningRate u) (currentMiningRate u) (adsWatchedToday u)
    (lastAdWatchTime u) (lastResetTime u) (miningStartTime u)
    (referralCode u) (referredBy u) v (depositBoostCap u) (createdAt u)
    (canWithdraw u) (withdrawEligibleAt u).

Definition set_depositBoostCap (v : Z) (u : User) : User :=
  mkUser (userId u) (email u) (name u) (balance u) (totalMined u)
    (baseMiningRate u) (currentMiningRate u) (adsWatchedToday u)
    (lastAdWatchTime u) (lastResetTime u) (miningStartTime u)
    (referralCode u) (referredBy u) (referralCount u) v (createdAt u)
    (canWithdraw u) (withdrawEligibleAt u).

(** The withdrawal request written by request-withdrawal (lines 423-432). *)
Inductive WithdrawalStatus := pending | completed.

Record Withdrawal := mkWithdrawal {
  w_userId : string;
  w_amount : Qc;
  w_ecocashNumber : string;
  w_fullName : string;
  w_method : string;
  w_status : WithdrawalStatus;
  w_requestedAt : Z;
  w_processedAt : option Z
}.

(** Modelled from the spec: the key-value store ([kv_store.tsx], imported on
    line 4, is not among the sources).  The specification describes it as a
    durable mapping from string keys to values with point get and point set
    (upsert).  The handlers use four key spaces, told apart by the prefixes
    [user:], [referral:], [referral_bonus:] and [withdrawal:], none of which
    is a prefix of another; each is a map from the rest of the key to the
    values the handlers store under it.  A value read is a copy: assigning
    to a field of [userData] changes the store only through a later
    [kv.set]. *)
Record Store := mkStore {
  users : gmap string User;
  referrals : gmap string string;
  bonuses : gmap string bool;
  withdrawals : gmap string Withdrawal
}.

(** The part of a key after its prefix. *)
Definition bonusKey (referrerId refereeId : string) : string :=
  referrerId +:+ ":" +:+ refereeId.

Definition withdrawalKey (uid : string) (now : Z) : string :=
  uid +:+ ":" +:+ pretty now.

(** ** Handlers as store transformers *)

Inductive Error :=
  | Unauthorized
  | UserNotFound
  | DailyLimitReached
  | CodeRequired
  | AlreadyReferred
  | InvalidCode
  | SelfReferral
  | ReferrerNotFound
  | BelowMinimumDeposit
  | MissingFields
  | NotYetEligible (daysLeft : Z)
  | BelowMinimumWithdrawal
  | InsufficientBalance.

Inductive Response (A : Type) :=
  | Ok (a : A)
  | Err (e : Error).
Arguments Ok {A} a.
Arguments Err {A} e.

(** A handler reads and writes the store and ends with a response.  An
    error response returns at once; writes made before it stay. *)
Definition Handler (A : Type) : Type := Store -> Store * Response A.

Definition ret {A} (a : A) : Handler A := fun s => (s, Ok a).
Definition fail {A} (e : Error) : Handler A := fun s => (s, Err e).
Definition bind {A B} (m : Handler A) (k : A -> Handler B) : Handler B :=
  fun s =>
    match m s with
    | (s', Ok a) => k a s'
    | (s', Err e) => (s', Err e)
    end.

Notation "'let*' x := m 'in' k" := (bind m (fun x => k))
  (at level 10, x name, m at level 100, k at level 200).
Notation "m ;;; k" := (bind m (fun _ => k))
  (at level 100, k at level 200, right associativity).

(** Point reads and writes, one pair for each key space. *)
Definition kv_get_user (id : string) : Handler (option User) :=
  fun s => (s, Ok (users s !! id)).
Definition kv_set_user (id : string) (u : User) : Handler unit :=
  fun s => (mkStore (<[id := u]> (users s)) (referrals s) (bonuses s)
              (withdrawals s), Ok tt).
Definition kv_get_referral (code : string) : Handler (option string) :=
  fun s => (s, Ok (referrals s !! code)).
Definition kv_get_bonus (key : string) : Handler (option bool) :=
  fun s => (s, Ok (bonuses s !! key)).
Definition kv_set_bonus (key : string) (b : bool) : Handler unit :=
  fun s => (mkStore (users s) (referrals s) (<[key := b]> (bonuses s))
              (withdrawals s), Ok tt).
Definition kv_set_withdrawal (key : string) (w : Withdrawal) : Handler unit :=
  fun s => (mkStore (users s) (referrals s) (bonuses s)
              (<[key := w]> (withdrawals s)), Ok tt).

(** [authenticateUser] (lines 43-57) with the check [error || !userId] that
    every handler makes on its result.  The identity provider is outside the
    program: [caller] is the user id it resolved the token to, if any. *)
Definition authenticateUser (caller : option string) : Handler string :=
  match caller with
  | Some uid => if truthy uid then ret uid else fail Unauthorized
  | None => fail Unauthorized
  end.

(** [kv.get(`user:${userId}`)] followed by the 404 of a missing record. *)
Definition loadUser (uid : string) : Handler User :=
  let* userData := kv_get_user uid in
  match userData with
  | Some u => ret u
  | None => fail UserNotFound
  end.

(** ** Accrual *)

(** The settlement that mining-status (lines 170-177) and watch-ad (lines
    215-220) both start with: earnings since [miningStartTime] at the current
    rate are added to [balance] and [totalMined]. *)
Definition accrue (userData : User) (now : Z) : User :=
  let timeDiff := (num (now - miningStartTime userData) / num 1000)%Qc in
  let minedAmount := (currentMiningRate userData * timeDiff)%Qc in
  let userData := set_balance (balance userData + minedAmount)%Qc userData in
  let userData := set_totalMined (totalMined userData + minedAmount)%Qc userData in
  set_miningStartTime now userData.

(** The daily reset that follows it (lines 180-185 and 223-228). *)
Definition dailyReset (userData : User) (now : Z) : User :=
  let hoursSinceReset :=
    (num (now - lastResetTime userData) / num (1000 * 60 * 60))%Qc in
  if Qcleb (num 24) hoursSinceReset then
    let userData := set_currentMiningRate (baseMiningRate userData) userData in
    let userData := set_adsWatchedToday 0 userData in
    set_lastResetTime now userData
  else userData.

(** The two together are the specification's [settle(record, now)]. *)
Definition settle (userData : User) (now : Z) : User :=
  dailyReset (accrue userData now) now.

(** ** GET /mining-status (lines 155-197) *)

Record MiningStatus := mkMiningStatus {
  ms_balance : Qc;
  ms_currentMiningRate : Qc;
  ms_adsWatchedToday : Z;
  ms_maxAdsPerDay : Z;
  ms_serverTime : Z;
  ms_timeUntilReset : Z
}.

Definition miningStatus (caller : option string) (now : Z)
  : Handler MiningStatus :=
  let* userId := authenticateUser caller in
  let* userData := loadUser userId in
  let userData := settle userData now in
  kv_set_user userId userData ;;;
  ret (mkMiningStatus (balance userData) (currentMiningRate userData)
         (adsWatchedToday userData) (depositBoostCap userData) now
         (24 * 60 * 60 * 1000 - (now - lastResetTime userData))).

(** ** POST /watch-ad (lines 200-248) *)

Record AdBoost := mkAdBoost {
  ab_newMiningRate : Qc;
  ab_adsWatchedToday : Z;
  ab_balance : Qc
}.

Definition watchAd (caller : option string) (now : Z) : Handler AdBoost :=
  let* userId := authenticateUser caller in
  let* userData := loadUser userId in
  let userData := settle userData now in
  if depositBoostCap userData <=? adsWatchedToday userData then
    fail DailyLimitReached
  else
    let userData :=
      set_currentMiningRate
        (currentMiningRate userData + AD_BOOST_INCREMENT)%Qc userData in
    let userData :=
      set_adsWatchedToday (adsWatchedToday userData + 1) userData in
    let userData := set_lastAdWatchTime now userData in
    kv_set_user userId userData ;;;
    ret (mkAdBoost (currentMiningRate userData) (adsWatchedToday userData)
           (balance userData)).

(** ** POST /apply-referral (lines 251-309) *)

Definition applyReferral (caller : option string) (referralCode : string)
  : Handler unit :=
  let* userId := authenticateUser caller in
  if negb (truthy referralCode) then fail CodeRequired else
  let* userData := loadUser userId in
  if truthy_opt (referredBy userData) then fail AlreadyReferred else
  let* referrerId := kv_get_referral (toUpperCase referralCode) in
  if negb (truthy_opt referrerId) then fail InvalidCode else
  let referrerId := str_of referrerId in
  if String.eqb referrerId userId then fail SelfReferral else
  let* referrerData := kv_get_user referrerId in
  match referrerData with
  | None => fail ReferrerNotFound
  | Some referrerData =>
      let userData := set_referredBy (Some referrerId) userData in
      if REFERRAL_AD_THRESHOLD <=? adsWatchedToday userData then
        let userData :=
          set_currentMiningRate
            (currentMiningRate userData + REFEREE_BONUS_RATE)%Qc userData in
        let referrerData :=
          set_currentMiningRate
            (currentMiningRate referrerData + REFERRER_RATE_BONUS)%Qc
            referrerData in
        let referrerData :=
          set_referralCount (referralCount referrerData + 1) referrerData in
        kv_set_user referrerId referrerData ;;;
        kv_set_user userId userData ;;;
        ret tt
      else
        kv_set_user userId userData ;;;
        ret tt
  end.

(** ** POST /check-referral-bonus (lines 312-346) *)

(** Truthiness of the stored marker: absent and [false] are both falsy. *)
Definition truthy_flag (o : option bool) : bool :=
  match o with
  | Some b => b
  | None => false
  end.

Definition checkReferralBonus (caller : option string) : Handler bool :=
  let* userId := authenticateUser caller in
  let* userData := loadUser userId in
  if (truthy_opt (referredBy userData)
      && (REFERRAL_AD_THRESHOLD <=? adsWatchedToday userData))%bool then
    let referrerId := str_of (referredBy userData) in
    let* referrerData := kv_get_user referrerId in
    match referrerData with
    | Some referrerData =>
        let key := bonusKey referrerId userId in
        let* bonusGiven := kv_get_bonus key in
        if (negb (truthy_flag bonusGiven)
            && Qcltb (num 0) (totalMined userData))%bool then
          let referrerData :=
            set_balance (balance referrerData + REFERRER_MINING_BONUS)%Qc
              referrerData in
          kv_set_user referrerId referrerData ;;;
          kv_set_bonus key true ;;;
          ret true
        else ret false
    | None => ret false
    end
  else ret false.

(** ** POST /deposit-boost (lines 349-382) *)

Definition depositBoost (caller : option string) (amount : Qc) : Handler Z :=
  let* userId := authenticateUser caller in
  if (Qeq_bool amount (num 0) || Qcltb amount MINIMUM_DEPOSIT)%bool then
    fail BelowMinimumDeposit
  else
    let* userData := loadUser userId in
    let extraCap := Math_floor (amount / num 2)%Qc * 50 in
    let userData :=
      set_depositBoostCap (depositBoostCap userData + extraCap) userData in
    kv_set_user userId userData ;;;
    ret (depositBoostCap userData).

(** ** POST /request-withdrawal (lines 385-445) *)

Record WithdrawalReceipt := mkReceipt {
  wr_withdrawalId : string;
  wr_newBalance : Qc
}.

Definition requestWithdrawal (caller : option string) (now : Z) (amount : Qc)
    (ecocashNumber fullName : string) : Handler WithdrawalReceipt :=
  let* userId := authenticateUser caller in
  if (Qeq_bool amount (num 0) || negb (truthy ecocashNumber)
      || negb (truthy fullName))%bool then fail MissingFields else
  let* userData := loadUser userId in
  if now <? withdrawEligibleAt userData then
    let daysLeft :=
      Math_ceil (num (withdrawEligibleAt userData - now)
                 / num (24 * 60 * 60 * 1000))%Qc in
    fail (NotYetEligible daysLeft)
  else if Qcltb amount MINIMUM_WITHDRAWAL then fail BelowMinimumWithdrawal
  else if Qcltb (balance userData) amount then fail InsufficientBalance
  else
    let withdrawalId := withdrawalKey userId now in
    let withdrawalData :=
      mkWithdrawal userId amount ecocashNumber fullName "Ecocash" pending
        now None in
    let userData := set_balance (balance userData - amount)%Qc userData in
    kv_set_withdrawal withdrawalId withdrawalData ;;;
    kv_set_user userId userData ;;;
    ret (mkReceipt ("withdrawal:" +:+ withdrawalId) (balance userData)).

(** ** What the handlers write *)

(** The store after [kv.set(`user:${id}`, u)]. *)
Definition store_with_user (id : string) (u : User) (s : Store) : Store :=
  mkStore (<[id := u]> (users s)) (referrals s) (bonuses s) (withdrawals s).

(** The record watch-ad writes back on success. *)
Definition boosted (u : User) (now : Z) : User :=
  set_lastAdWatchTime now
    (set_adsWatchedToday (adsWatchedToday (settle u now) + 1)
       (set_currentMiningRate
          (currentMiningRate (settle u now) + AD_BOOST_INCREMENT)%Qc
          (settle u now))).

(** The records apply-referral writes when the bonuses are due. *)
Definition linked_referee (rid : string) (u : User) : User :=
  set_currentMiningRate (currentMiningRate u + REFEREE_BONUS_RATE)%Qc
    (set_referredBy (Some rid) u).

Definition rewarded_referrer (r : User) : User :=
  set_referralCount (referralCount r + 1)
    (set_currentMiningRate (currentMiningRate r + REFERRER_RATE_BONUS)%Qc r).

(** The record check-referral-bonus writes for the referrer. *)
Definition credited_referrer (r : User) : User :=
  set_balance (balance r + REFERRER_MINING_BONUS)%Qc r.

(** The store after the credit and the marker have been written. *)
Definition store_with_bonus (rid uid : string) (r : User) (s : Store) : Store :=
  mkStore (<[rid := credited_referrer r]> (users s)) (referrals s)
    (<[bonusKey rid uid := true]> (bonuses s)) (withdrawals s).

(** The record request-withdrawal stores. *)
Definition pending_withdrawal (uid : string) (now : Z) (amount : Qc)
    (ecocashNumber fullName : string) : Withdrawal :=
  mkWithdrawal uid amount ecocashNumber fullName "Ecocash" pending now None.

(** The store after the two writes of a successful request. *)
Definition store_after_withdrawal (uid : string) (u : User) (now : Z)
    (amount : Qc) (ecocashNumber fullName : string) (s : Store) : Store :=
  mkStore (<[uid := set_balance (balance u - amount)%Qc u]> (users s))
    (referrals s) (bonuses s)
    (<[withdrawalKey uid now
       := pending_withdrawal uid now amount ecocashNumber fullName]>
       (withdrawals s)).

(** The conditions under which a request goes through, read off the stored
    record. *)
Definition withdrawal_accepted (u : User) (now : Z) (amount : Qc)
    (ecocashNumber fullName : string) : Prop :=
  amount <> 0%Qc /\ truthy ecocashNumber = true /\ truthy fullName = true
  /\ withdrawEligibleAt u <= now
  /\ (MINIMUM_WITHDRAWAL <= amount)%Qc
  /\ (amount <= balance u)%Qc.

(** ** The contracts as the specification words them *)

(** The elapsed seconds as the specification has them, clamped at zero. *)
Definition clamped_elapsed (u : User) (now : Z) : Qc :=
  (num (Z.max 0 (now - miningStartTime u)) / num 1000)%Qc.

(** The accrual contract with the clamp. *)
Definition settle_clamped_contract (u : User) (now : Z) : Prop :=
  balance (settle u now)
  = (balance u + currentMiningRate u * clamped_elapsed u now)%Qc
  /\ totalMined (settle u now)
    = (totalMined u + currentMiningRate u * clamped_elapsed u now)%Qc
  /\ miningStartTime (settle u now) = now.

(** Request-withdrawal as section 4.4 of the specification words it: the
    same handler with the accrual settled and stored before the checks. *)
Definition requestWithdrawal_settling_first (caller : option string) (now : Z)
    (amount : Qc) (ecocashNumber fullName : string)
  : Handler WithdrawalReceipt :=
  let* userId := authenticateUser caller in
  if (Qeq_bool amount (num 0) || negb (truthy ecocashNumber)
      || negb (truthy fullName))%bool then fail MissingFields else
  let* userData := loadUser userId in
  let userData := settle userData now in
  kv_set_user userId userData ;;;
  if now <? withdrawEligibleAt userData then
    let daysLeft :=
      Math_ceil (num (withdrawEligibleAt userData - now)
                 / num (24 * 60 * 60 * 1000))%Qc in
    fail (NotYetEligible daysLeft)
  else if Qcltb amount MINIMUM_WITHDRAWAL then fail BelowMinimumWithdrawal
  else if Qcltb (balance userData) amount then fail InsufficientBalance
  else
    let withdrawalId := withdrawalKey userId now in
    let withdrawalData :=
      mkWithdrawal userId amount ecocashNumber fullName "Ecocash" pending
        now None in
    let userData := set_balance (balance userData - amount)%Qc userData in
    kv_set_withdrawal withdrawalId withdrawalData ;;;
    kv_set_user userId userData ;;;
    ret (mkReceipt ("withdrawal:" +:+ withdrawalId) (balance userData)).

(** The handler settles before it checks: it answers as the settling
    handler does and leaves the same store. *)
Definition settles_before_checks (caller : option string) (now : Z)
    (amount : Qc) (eco full : string) (s : Store) : Prop :=
  requestWithdrawal caller now amount eco full s
  = requestWithdrawal_settling_first caller now amount eco full s.

(** ** The stores a call passes through *)

(** A handler together with the stores it leaves after each of its writes,
    in the order of the writes.  Every [kv.set] is awaited on its own, so
    each of these stores can be seen by another request; the last one is the
    store after the call. *)
Definition Traced (A : Type) : Type :=
  Store -> list Store * (Store * Response A).

(** A step that does not write: a read, a test, the response. *)
Definition reading {A} (h : Handler A) : Traced A := fun s => ([], h s).

(** One [kv.set]. *)
Definition writing (h : Handler unit) : Traced unit :=
  fun s => ([fst (h s)], h s).

Definition tbind {A B} (m : Traced A) (k : A -> Traced B) : Traced B :=
  fun s =>
    match m s with
    | (tr, (s', Ok a)) => (tr ++ fst (k a s'), snd (k a s'))
    | (tr, (s', Err e)) => (tr, (s', Err e))
    end.

Notation "'let+' x := m 'in' k" := (tbind m (fun x => k))
  (at level 10, x name, m at level 100, k at level 200).

(** POST /request-withdrawal (lines 385-445) with its writes traced: the
    withdrawal record on line 437, the debited user record on line 438. *)
Definition requestWithdrawal_traced (caller : option string) (now : Z)
    (amount : Qc) (ecocashNumber fullName : string)
  : Traced WithdrawalReceipt :=
  let+ userId := reading (authenticateUser caller) in
  if (Qeq_bool amount (num 0) || negb (truthy ecocashNumber)
      || negb (truthy fullName))%bool then reading (fail MissingFields) else
  let+ userData := reading (loadUser userId) in
  if now <? withdrawEligibleAt userData then
    let daysLeft :=
      Math_ceil (num (withdrawEligibleAt userData - now)
                 / num (24 * 60 * 60 * 1000))%Qc in
    reading (fail (NotYetEligible daysLeft))
  else if Qcltb amount MINIMUM_WITHDRAWAL then
    reading (fail BelowMinimumWithdrawal)
  else if Qcltb (balance userData) amount then
    reading (fail InsufficientBalance)
  else
    let withdrawalId := withdrawalKey userId now in
    let withdrawalData :=
      mkWithdrawal userId amount ecocashNumber fullName "Ecocash" pending
        now None in
    let userData := set_balance (balance userData - amount)%Qc userData in
    let+ _ := writing (kv_set_withdrawal withdrawalId withdrawalData) in
    let+ _ := writing (kv_set_user userId userData) in
    reading (ret (mkReceipt ("withdrawal:" +:+ withdrawalId)
                    (balance userData))).

(** The store between the two writes of a granted request. *)
Definition store_with_record (uid : string) (now : Z) (amount : Qc)
    (ecocashNumber fullName : string) (s : Store) : Store :=
  mkStore (users s) (referrals s) (bonuses s)
    (<[withdrawalKey uid now
       := pending_withdrawal uid now amount ecocashNumber fullName]>
       (withdrawals s)).

(** The debit of [amount] from the record [u] shows in a store, and so does
    a withdrawal record under [key]. *)
Definition debit_visible (uid : string) (u : User) (amount : Qc)
    (st : Store) : Prop :=
  exists u', users st !! uid = Some u'
    /\ balance u' = (balance u - amount)%Qc.

Definition record_visible (key : string) (st : Store) : Prop :=
  is_Some (withdrawals st !! key).

(** In every store of [states] the debit shows if and only if the record
    does. *)
Definition written_together (uid : string) (u : User) (amount : Qc)
    (key : string) (states : list Store) : Prop :=
  forall st, st ∈ states ->
    (debit_visible uid u amount st <-> record_visible key st).

(** ** Sample records and stores *)

(** A record whose [miningStartTime] lies one second in the future. *)
Definition future_start_user : User :=
  mkUser "u-future" "f@example.org" "F" (num 5) (num 5) AD_BOOST_INCREMENT
    (num 1) 0 0 0 2000 "ECOU-FUTUR" None 0 50 0 false 0.

(** A user at the default cap of 50 with 50 ads watched, last reset at
    time 0, and the store holding that record. *)
Definition capped_user : User :=
  mkUser "u-cap" "cap@example.org" "Cap" (num 0) (num 0) AD_BOOST_INCREMENT
    (lit 51 10000000) 50 0 0 0 "ECOU-CAP" None 0 50 0 false DAY_MS.

Definition capped_store : Store :=
  mkStore {[ "u-cap" := capped_user ]} ∅ ∅ ∅.

(** A referee who has watched three ads, a referrer, and the store that
    holds both with the referrer's code in the index. *)
Definition referee_user : User :=
  mkUser "5b1c2d3e-ref" "ref@example.org" "Ref" (num 0) (lit 1 1000)
    AD_BOOST_INCREMENT (lit 4 10000000) 3 0 0 0 "ECO5B1C2D3E" None 0 50 0
    false DAY_MS.

Definition referrer_user : User :=
  mkUser "9f8e7d6c-host" "host@example.org" "Host" (num 1) (num 1)
    AD_BOOST_INCREMENT AD_BOOST_INCREMENT 0 0 0 0 "ECO9F8E7D6C" None 0 50 0
    false DAY_MS.

Definition referral_store : Store :=
  mkStore
    (<[ "5b1c2d3e-ref" := referee_user ]> {[ "9f8e7d6c-host" := referrer_user ]})
    (<[ "ECO5B1C2D3E" := "5b1c2d3e-ref" ]> {[ "ECO9F8E7D6C" := "9f8e7d6c-host" ]})
    ∅ ∅.

(** The referee of [referral_store] after linking, in a store where the
    link is recorded. *)
Definition linked_store : Store :=
  store_with_user "5b1c2d3e-ref" (linked_referee "9f8e7d6c-host" referee_user)
    referral_store.

(** A new user with the default cap of 50, and the store holding it. *)
Definition fresh_user : User :=
  mkUser "c0ffee00-new" "new@example.org" "New" (num 0) (num 0)
    AD_BOOST_INCREMENT AD_BOOST_INCREMENT 0 0 0 0 "ECOC0FFEE00" None 0 50 0
    false DAY_MS.

Definition fresh_store : Store :=
  mkStore {[ "c0ffee00-new" := fresh_user ]} ∅ ∅ ∅.

(** An eligible user with a balance of 250, and the store holding it. *)
Definition funded_user : User :=
  mkUser "d00d1e55-pay" "pay@example.org" "Pay" (num 250) (num 250)
    AD_BOOST_INCREMENT AD_BOOST_INCREMENT 0 0 0 0 "ECOD00D1E55" None 0 50 0
    false 0.

Definition funded_store : Store :=
  mkStore {[ "d00d1e55-pay" := funded_user ]} ∅ ∅ ∅.

(** An eligible user whose stored balance is 99, mining at rate 1 since
    time 0, and the store holding it. *)
Definition stale_user : User :=
  mkUser "57a1e000-old" "old@example.org" "Old" (num 99) (num 99)
    AD_BOOST_INCREMENT (num 1) 0 0 0 0 "ECO57A1E000" None 0 50 0 false 0.

Definition stale_store : Store :=
  mkStore {[ "57a1e000-old" := stale_user ]} ∅ ∅ ∅.

(** * The rest of the server *)

(** ** POST /signup (lines 70-135) *)

(** [generateReferralCode] (lines 60-62). *)
Definition generateReferralCode (userId : string) : string :=
  "ECO" +:+ toUpperCase (String.substring 0 8 userId).

(** What [supabase.auth.admin.createUser] answered: an error with its
    message, or the new user with its id.  The identity provider is outside
    the program. *)
Inductive Created :=
  | CreateFailed (message : string)
  | CreatedUser (id : string).

Inductive SignupResponse :=
  | SignupDone (userId referralCode : string)
  | SignupMissingFields
  | SignupRejected (message : string).

Definition kv_set_referral (code id : string) : Handler unit :=
  fun s => (mkStore (users s) (<[code := id]> (referrals s)) (bonuses s)
              (withdrawals s), Ok tt).

(** The record of a new account (lines 104-123). *)
Definition initialUser (userId email name : string) (now : Z) : User :=
  mkUser userId email name (num 0) (num 0) (lit 1 10000000) (lit 1 10000000)
    0 0 now now (generateReferralCode userId) None 0 50 now false
    (now + 7 * 24 * 60 * 60 * 1000).

Definition signup (email password name : string) (created : Created)
    (now : Z) (s : Store) : Store * SignupResponse :=
  if (negb (truthy email) || negb (truthy password) || negb (truthy name))%bool
  then (s, SignupMissingFields)
  else
    match created with
    | CreateFailed message => (s, SignupRejected message)
    | CreatedUser userId =>
        let referralCode := generateReferralCode userId in
        let userData := initialUser userId email name now in
        (fst ((kv_set_user userId userData ;;;
               kv_set_referral referralCode userId) s),
         SignupDone userId referralCode)
    end.

(** ** GET /profile (lines 138-152) *)

Definition profile (caller : option string) : Handler User :=
  let* userId := authenticateUser caller in
  loadUser userId.

(** ** GET /withdrawals (lines 448-458) *)

(** Modelled from the spec: the prefix scan of the key-value store
    ([kv.getByPrefix], in [kv_store.tsx]), on the withdrawal key space: the
    entries whose key, after [withdrawal:], starts with [prefix].  The admin
    panel reads the answer as pairs of key and record; the order of the pairs
    is the store's and is not modelled. *)
Definition scan_withdrawals (prefix : string) (s : Store)
  : gmap string Withdrawal :=
  filter (fun kv => String.prefix prefix kv.1 = true) (withdrawals s).

Definition listWithdrawals (caller : option string)
  : Handler (gmap string Withdrawal) :=
  let* userId := authenticateUser caller in
  fun s => (s, Ok (scan_withdrawals (userId +:+ ":") s)).

(** ** The admin endpoints (lines 461-508) *)

(** [String.prototype.includes]. *)
Fixpoint includes (s sub : string) : bool :=
  (String.prefix sub s
   || match s with
      | EmptyString => false
      | String _ r => includes r sub
      end)%bool.

(** The test [!userData || !userData.email?.includes('admin')], negated. *)
Definition isAdmin (userData : option User) : bool :=
  match userData with
  | Some u => includes (email u) "admin"
  | None => false
  end.

Inductive AdminResponse (A : Type) :=
  | AdminOk (a : A)
  | AdminUnauthorized
  | AdminAccessRequired
  | AdminWithdrawalNotFound.
Arguments AdminOk {A} a.
Arguments AdminUnauthorized {A}.
Arguments AdminAccessRequired {A}.
Arguments AdminWithdrawalNotFound {A}.

Definition adminWithdrawals (caller : option string) (s : Store)
  : Store * AdminResponse (gmap string Withdrawal) :=
  if negb (truthy_opt caller) then (s, AdminUnauthorized) else
  let userId := str_of caller in
  if negb (isAdmin (users s !! userId)) then (s, AdminAccessRequired) else
  (s, AdminOk (scan_withdrawals "" s)).

(** [withdrawalData.status = 'completed'; withdrawalData.processedAt = now]. *)
Definition mark_completed (now : Z) (w : Withdrawal) : Withdrawal :=
  mkWithdrawal (w_userId w) (w_amount w) (w_ecocashNumber w) (w_fullName w)
    (w_method w) completed (w_requestedAt w) (Some now).

(** POST /admin/process-withdrawal, for a [withdrawalId] of the withdrawal
    key space: [key] is the id without its [withdrawal:] prefix.  Ids that
    name a key of another space are not covered. *)
Definition processWithdrawal (caller : option string) (key : string) (now : Z)
    (s : Store) : Store * AdminResponse unit :=
  if negb (truthy_opt caller) then (s, AdminUnauthorized) else
  let userId := str_of caller in
  if negb (isAdmin (users s !! userId)) then (s, AdminAccessRequired) else
  match withdrawals s !! key with
  | None => (s, AdminWithdrawalNotFound)
  | Some withdrawalData =>
      let withdrawalData := mark_completed now withdrawalData in
      (fst (kv_set_withdrawal key withdrawalData s), AdminOk tt)
  end.

(** * The client *)

(** [formatTime] of the dashboard ([MiningDashboard.tsx], lines 267-271):
    [Math.floor] of a quotient of integers is the floor division, [%] the
    remainder with the sign of the dividend. *)
Definition formatTime_hours (ms : Z) : Z := ms / (1000 * 60 * 60).
Definition formatTime_minutes (ms : Z) : Z :=
  Z.rem ms (1000 * 60 * 60) / (1000 * 60).
Definition formatTime (ms : Z) : string :=
  pretty (formatTime_hours ms) +:+ "h " +:+ pretty (formatTime_minutes ms)
  +:+ "m".

(** The progress updater of the splash screen ([part_000], lines 524-533):
    the new progress, and whether [onComplete] was scheduled. *)
Definition splashTick (prev : Z) : Z * bool :=
  if 100 <=? prev then (100, true) else (prev + 2, false).

(** The progress updater of the rewarded-ad modal ([AdminPanel.tsx], lines
    263-282), on the pair of [progress] and [canClose]. *)
Definition AD_DURATION : Z := 5.

Definition adTick (st : Qc * bool) : Qc * bool :=
  let newProgress := (st.1 + num 100 / num AD_DURATION)%Qc in
  if Qcleb (num 100) newProgress then (num 100, true)
  else (newProgress, st.2).

(** The conditions under which check-referral-bonus pays, read off the
    store. *)
Definition bonus_due (uid : string) (u : User) (s : Store) : Prop :=
  truthy_opt (referredBy u) = true
  /\ REFERRAL_AD_THRESHOLD <= adsWatchedToday u
  /\ is_Some (users s !! str_of (referredBy u))
  /\ truthy_flag (bonuses s !! bonusKey (str_of (referredBy u)) uid) = false
  /\ (0 < totalMined u)%Qc.

(** * Requests in sequence *)

(** A request to one of the handlers that write. *)
Inductive Request :=
  | SignupReq (email password name : string) (created : Created) (now : Z)
  | MiningStatusReq (caller : option string) (now : Z)
  | WatchAdReq (caller : option string) (now : Z)
  | ApplyReferralReq (caller : option string) (referralCode : string)
  | CheckReferralBonusReq (caller : option string)
  | DepositBoostReq (caller : option string) (amount : Qc)
  | RequestWithdrawalReq (caller : option string) (now : Z) (amount : Qc)
      (ecocashNumber fullName : string)
  | ProcessWithdrawalReq (caller : option string) (key : string) (now : Z).

(** The store after a request has been served. *)
Definition serve (r : Request) (s : Store) : Store :=
  match r with
  | SignupReq e p n c now => fst (signup e p n c now s)
  | MiningStatusReq c now => fst (miningStatus c now s)
  | WatchAdReq c now => fst (watchAd c now s)
  | ApplyReferralReq c code => fst (applyReferral c code s)
  | CheckReferralBonusReq c => fst (checkReferralBonus c s)
  | DepositBoostReq c a => fst (depositBoost c a s)
  | RequestWithdrawalReq c now a e f => fst (requestWithdrawal c now a e f s)
  | ProcessWithdrawalReq c k now => fst (processWithdrawal c k now s)
  end.

(** The server time a request is served at, for the handlers that read it. *)
Definition served_at (r : Request) : option Z :=
  match r with
  | SignupReq _ _ _ _ now => Some now
  | MiningStatusReq _ now => Some now
  | WatchAdReq _ now => Some now
  | RequestWithdrawalReq _ now _ _ _ => Some now
  | ProcessWithdrawalReq _ _ now => Some now
  | _ => None
  end.

(** The clock after a request, the clock before it being [T]. *)
Definition clock_after (T : Z) (r : Request) : Z :=
  match served_at r with
  | Some now => now
  | None => T
  end.

(** Requests served one after the other, with the clock they leave. *)
Fixpoint serve_all (rs : list Request) (T : Z) (s : Store) : Z * Store :=
  match rs with
  | [] => (T, s)
  | r :: rest => serve_all rest (clock_after T r) (serve r s)
  end.

(** The server clock never goes back over the requests. *)
Fixpoint clock_ordered (T : Z) (rs : list Request) : Prop :=
  match rs with
  | [] => True
  | r :: rest =>
      match served_at r with
      | Some now => T <= now
      | None => True
      end /\ clock_ordered (clock_after T r) rest
  end.

(** A user record in order at clock [T]: no negative amount, the rate not
    below the base rate, the ad counter within the cap, and no settlement
    later than [T]. *)
Definition user_ok (T : Z) (u : User) : Prop :=
  (0 <= balance u)%Qc /\ (0 <= totalMined u)%Qc
  /\ (0 <= baseMiningRate u)%Qc
  /\ (baseMiningRate u <= currentMiningRate u)%Qc
  /\ 0 <= adsWatchedToday u <= depositBoostCap u
  /\ miningStartTime u <= T.

Definition ledger_ok (T : Z) (s : Store) : Prop :=
  forall (id : string) (u : User), users s !! id = Some u -> user_ok T u.

(** The empty store. *)
Definition empty_store : Store := mkStore ∅ ∅ ∅ ∅.

(** What a later version [u'] of a record [u] keeps: the fields set at
    signup, a cap that has not gone down, a referral count that has not gone
    down, and the referrer once there is one. *)
Definition evolves (u u' : User) : Prop :=
  userId u' = userId u /\ email u' = email u /\ name u' = name u
  /\ baseMiningRate u' = baseMiningRate u
  /\ referralCode u' = referralCode u /\ createdAt u' = createdAt u
  /\ canWithdraw u' = canWithdraw u
  /\ withdrawEligibleAt u' = withdrawEligibleAt u
  /\ depositBoostCap u <= depositBoostCap u'
  /\ referralCount u <= referralCount u'
  /\ (truthy_opt (referredBy u) = true -> referredBy u' = referredBy u).

(** No request of the list is a signup. *)
Fixpoint no_signup (rs : list Request) : Prop :=
  match rs with
  | [] => True
  | SignupReq _ _ _ _ _ :: _ => False
  | _ :: rest => no_signup rest
  end.

(** A session: two signups, three ads, a link, a deposit, a refused
    withdrawal and two polls, in the order of the server clock. *)
Definition sample_session : list Request :=
  [ SignupReq "host@example.org" "pw-host" "Host" (CreatedUser "9f8e7d6c-host") 1000;
    SignupReq "ref@example.org" "pw-ref" "Ref" (CreatedUser "5b1c2d3e-ref") 2000;
    WatchAdReq (Some "5b1c2d3e-ref") 3000;
    WatchAdReq (Some "5b1c2d3e-ref") 4000;
    WatchAdReq (Some "5b1c2d3e-ref") 5000;
    ApplyReferralReq (Some "5b1c2d3e-ref") "eco9f8e7d6c";
    CheckReferralBonusReq (Some "5b1c2d3e-ref");
    DepositBoostReq (Some "9f8e7d6c-host") (num 5);
    RequestWithdrawalReq (Some "9f8e7d6c-host") 6000 (num 100) "0771234567" "Host";
    MiningStatusReq (Some "9f8e7d6c-host") 90000000;
    MiningStatusReq (Some "5b1c2d3e-ref") 90000000 ].

(** The same session without the link. *)
Definition sample_session_unlinked : list Request :=
  [ WatchAdReq (Some "5b1c2d3e-ref") 3000;
    WatchAdReq (Some "5b1c2d3e-ref") 4000;
    CheckReferralBonusReq (Some "5b1c2d3e-ref");
    DepositBoostReq (Some "9f8e7d6c-host") (num 5);
    MiningStatusReq (Some "9f8e7d6c-host") 90000000 ].

(** An administrator, and a store with the administrator and the pending
    request of [funded_user]. *)
Definition admin_user : User :=
  mkUser "ad000000-adm" "admin@example.org" "Adm" (num 0) (num 0)
    AD_BOOST_INCREMENT AD_BOOST_INCREMENT 0 0 0 0 "ECOAD000000" None 0 50 0
    false DAY_MS.

Definition admin_store : Store :=
  store_with_user "ad000000-adm" admin_user
    (store_after_withdrawal "d00d1e55-pay" funded_user 5000 (num 100)
       "0771234567" "Pay" funded_store).

(** The splash screen's progress after [n] ticks, from the initial 0. *)
Definition splash_after (n : nat) : Z :=
  Nat.iter n (fun prev => (splashTick prev).1) 0.

(** The ad modal's state after [n] ticks, from the state of a modal that has
    just been opened. *)
Definition ad_after (n : nat) : Qc * bool :=
  Nat.iter n adTick (num 0, false).

(** * Properties *)

(** ** Arithmetic of the model *)

Lemma num_0 : num 0 = 0%Qc.
Proof. exact Z2Qc_inj_0. Qed.

Lemma num_pos (z : Z) : 0 < z -> (0 < num z)%Qc.
Proof.
  intros H. rewrite <- num_0. unfold num.
  exact (proj1 (Z2Qc_inj_lt 0 z) H).
Qed.

Lemma num_nonzero (z : Z) : 0 < z -> num z <> 0%Qc.
Proof.
  intros H E. apply num_pos in H. rewrite E in H.
  now apply (Qclt_not_eq 0 0).
Qed.

Lemma Qcleb_le (a b : Qc) : Qcleb a b = true <-> (a <= b)%Qc.
Proof. unfold Qcleb, Qcle. apply Qle_bool_iff. Qed.

Lemma Qcltb_lt (a b : Qc) : Qcltb a b = true <-> (a < b)%Qc.
Proof.
  unfold Qcltb. rewrite negb_true_iff, Qclt_nge, <- Qcleb_le.
  unfold Qcleb. now destruct (Qle_bool b a).
Qed.

Lemma Qcltb_ge (a b : Qc) : Qcltb a b = false <-> (b <= a)%Qc.
Proof.
  unfold Qcltb. rewrite negb_false_iff. apply Qcleb_le.
Qed.

Lemma Qeq_bool_num_0 (a : Qc) : Qeq_bool a (num 0) = true <-> a = 0%Qc.
Proof.
  rewrite num_0, Qeq_bool_iff. split.
  - apply Qc_is_canon.
  - now intros ->.
Qed.

(** Two literals that differ. *)
Ltac literals_differ :=
  let H := fresh "H" in
  intros H; apply (f_equal this) in H; vm_compute in H; discriminate.

(** No time elapsed, nothing earned. *)
Lemma no_time_no_earnings (rate : Qc) : (rate * (num 0 / num 1000))%Qc = 0%Qc.
Proof. rewrite num_0. unfold Qcdiv. ring. Qed.

(** The test [hoursSinceReset >= 24] in milliseconds. *)
Lemma rollover_due (d : Z) :
  Qcleb (num 24) (num d / num (1000 * 60 * 60))%Qc = (DAY_MS <=? d).
Proof.
  assert (Hk : (0 < num (1000 * 60 * 60))%Qc) by (apply num_pos; lia).
  assert (Hiff : (num 24 <= num d / num (1000 * 60 * 60))%Qc <-> DAY_MS <= d).
  { rewrite (Qcmult_le_mono_pos_r _ _ _ Hk).
    rewrite (Qcmult_comm (num d / _)), Qcmult_div_r
      by (apply num_nonzero; lia).
    unfold num. rewrite <- Z2Qc_inj_mul, <- Z2Qc_inj_le.
    unfold DAY_MS. lia. }
  destruct (Z.leb_spec DAY_MS d) as [H|H].
  - apply Qcleb_le, Hiff, H.
  - destruct (Qcleb _ _) eqn:E; [|reflexivity].
    apply Qcleb_le, Hiff in E. lia.
Qed.

(** ** Settlement *)

(** The daily reset leaves the money and the settlement time alone. *)
Lemma dailyReset_frame (u : User) (now : Z) :
  balance (dailyReset u now) = balance u
  /\ totalMined (dailyReset u now) = totalMined u
  /\ miningStartTime (dailyReset u now) = miningStartTime u
  /\ depositBoostCap (dailyReset u now) = depositBoostCap u
  /\ baseMiningRate (dailyReset u now) = baseMiningRate u.
Proof. unfold dailyReset. destruct (Qcleb _ _); repeat split. Qed.

Lemma settle_depositBoostCap (u : User) (now : Z) :
  depositBoostCap (settle u now) = depositBoostCap u.
Proof. unfold settle. now rewrite (proj1 (proj2 (proj2 (proj2 (dailyReset_frame _ _))))). Qed.

(** What [settle] leaves when the window has rolled over, and when not. *)
Lemma settle_rollover (u : User) (now : Z) :
  DAY_MS <= now - lastResetTime u ->
  currentMiningRate (settle u now) = baseMiningRate u
  /\ adsWatchedToday (settle u now) = 0
  /\ lastResetTime (settle u now) = now.
Proof.
  intros H. unfold settle, dailyReset.
  change (lastResetTime (accrue u now)) with (lastResetTime u).
  rewrite rollover_due. apply Z.leb_le in H. rewrite H. repeat split.
Qed.

Lemma settle_same_window (u : User) (now : Z) :
  now - lastResetTime u < DAY_MS ->
  currentMiningRate (settle u now) = currentMiningRate u
  /\ adsWatchedToday (settle u now) = adsWatchedToday u
  /\ lastResetTime (settle u now) = lastResetTime u.
Proof.
  intros H. unfold settle, dailyReset.
  change (lastResetTime (accrue u now)) with (lastResetTime u).
  rewrite rollover_due. apply Z.leb_gt in H. rewrite H. repeat split.
Qed.

(** C3 (as stated, refuted): with [miningStartTime = 2000] and [now = 1000]
    the clamped contract would leave the balance at 5; the code subtracts one
    second of earnings at rate 1 and leaves 4. *)
Lemma settle_future_start_loses_balance :
  ~ settle_clamped_contract future_start_user 1000
  /\ balance (settle future_start_user 1000) = num 4
  /\ (balance (settle future_start_user 1000) < balance future_start_user)%Qc.
Proof.
  assert (E : balance (settle future_start_user 1000) = num 4)
    by (apply Qc_is_canon; reflexivity).
  split; [|split].
  - intros [Hb _]. rewrite E in Hb. revert Hb. literals_differ.
  - exact E.
  - rewrite E. apply Qcltb_lt. reflexivity.
Qed.

(** C3 (amended): [settle] adds [currentMiningRate * (now - miningStartTime)
    / 1000] to both [balance] and [totalMined], with the elapsed time taken
    as it is (no clamp at zero), and sets [miningStartTime] to [now]. *)
Theorem settle_accrual (u : User) (now : Z) :
  balance (settle u now)
  = (balance u + currentMiningRate u * (num (now - miningStartTime u) / num 1000))%Qc
  /\ totalMined (settle u now)
    = (totalMined u + currentMiningRate u * (num (now - miningStartTime u) / num 1000))%Qc
  /\ miningStartTime (settle u now) = now.
Proof.
  unfold settle.
  destruct (dailyReset_frame (accrue u now) now) as (Hb & Ht & Hs & _).
  rewrite Hb, Ht, Hs. repeat split.
Qed.

(** Where the clock has not gone back the clamp changes nothing, and the
    clamped contract holds. *)
Lemma settle_clamped_when_monotone (u : User) (now : Z) :
  miningStartTime u <= now -> settle_clamped_contract u now.
Proof.
  intros H. unfold settle_clamped_contract, clamped_elapsed, settle.
  rewrite Z.max_r by lia.
  destruct (dailyReset_frame (accrue u now) now) as (Hb & Ht & Hs & _).
  rewrite Hb, Ht, Hs. repeat split.
Qed.

Lemma settle_miningStartTime (u : User) (now : Z) :
  miningStartTime (settle u now) = now.
Proof.
  unfold settle.
  now rewrite (proj1 (proj2 (proj2 (dailyReset_frame (accrue u now) now)))).
Qed.

(** A record settled at [now] earns nothing more at [now]. *)
Lemma accrue_settled (u : User) (now : Z) :
  miningStartTime u = now -> accrue u now = u.
Proof.
  destruct u; cbn [miningStartTime]; intros ->.
  unfold accrue, set_balance, set_totalMined, set_miningStartTime.
  cbn -[Qcplus Qcmult Qcdiv num].
  rewrite Z.sub_diag, !no_time_no_earnings, !Qcplus_0_r. reflexivity.
Qed.

(** The daily reset is taken at most once for a given [now]. *)
Lemma dailyReset_idempotent (u : User) (now : Z) :
  dailyReset (dailyReset u now) now = dailyReset u now.
Proof.
  unfold dailyReset at 2 3.
  destruct (Qcleb (num 24) (num (now - lastResetTime u) / num (1000 * 60 * 60)))
    eqn:E.
  - unfold dailyReset. cbn [lastResetTime set_lastResetTime].
    rewrite Z.sub_diag, rollover_due. reflexivity.
  - unfold dailyReset. rewrite E. reflexivity.
Qed.

(** C8: settling twice at the same [now] is settling once; the second call
    leaves every field as the first left it, whether or not the first one
    rolled the daily window over. *)
Theorem settle_idempotent (u : User) (now : Z) :
  settle (settle u now) now = settle u now.
Proof.
  unfold settle at 1.
  rewrite accrue_settled by apply settle_miningStartTime.
  unfold settle. apply dailyReset_idempotent.
Qed.

(** ** Running a handler for a known caller *)

Section Prelude.
Context {A : Type} (s : Store).

(** A caller the identity provider does not know gets 401 from every
    handler, before anything is read. *)
Lemma auth_rejected (caller : option string) (k : string -> Handler A) :
  truthy_opt caller = false ->
  (let* userId := authenticateUser caller in k userId) s = (s, Err Unauthorized).
Proof.
  intros H. unfold bind, authenticateUser.
  destruct caller as [uid|]; cbn in H; [rewrite H|]; reflexivity.
Qed.

Variable uid : string.

Lemma auth_ok (k : string -> Handler A) :
  truthy uid = true ->
  (let* userId := authenticateUser (Some uid) in k userId) s = k uid s.
Proof. intros H. unfold bind, authenticateUser. rewrite H. reflexivity. Qed.

Lemma load_ok (u : User) (k : User -> Handler A) :
  users s !! uid = Some u ->
  (let* userData := loadUser uid in k userData) s = k u s.
Proof.
  intros H. unfold loadUser, bind, kv_get_user, ret. rewrite H. reflexivity.
Qed.

Lemma load_missing (k : User -> Handler A) :
  users s !! uid = None ->
  (let* userData := loadUser uid in k userData) s = (s, Err UserNotFound).
Proof.
  intros H. unfold loadUser, bind, kv_get_user, fail. rewrite H. reflexivity.
Qed.

End Prelude.

(** The first steps of a handler, for a caller whose record is [u]. *)
Ltac as_caller Hid :=
  rewrite auth_ok by exact Hid.
Ltac with_record u Hu :=
  rewrite load_ok with (u := u) by exact Hu.

(** ** Watching an ad *)

Lemma watchAd_run (uid : string) (u : User) (now : Z) (s : Store) :
  truthy uid = true -> users s !! uid = Some u ->
  watchAd (Some uid) now s =
    if depositBoostCap u <=? adsWatchedToday (settle u now)
    then (s, Err DailyLimitReached)
    else (store_with_user uid (boosted u now) s,
          Ok (mkAdBoost (currentMiningRate (boosted u now))
                (adsWatchedToday (boosted u now)) (balance (boosted u now)))).
Proof.
  intros Hid Hu. unfold watchAd.
  as_caller Hid. with_record u Hu.
  rewrite settle_depositBoostCap.
  destruct (depositBoostCap u <=? adsWatchedToday (settle u now)); reflexivity.
Qed.

(** C10: a watch-ad call that ends in the daily-limit error has written
    nothing: the store after the call is the store before it, so the
    settlement and the reset computed before the cap check are dropped. *)
Theorem watchAd_limit_no_write (caller : option string) (now : Z) (s : Store) :
  snd (watchAd caller now s) = Err DailyLimitReached ->
  fst (watchAd caller now s) = s.
Proof.
  destruct (truthy_opt caller) eqn:Hc.
  - destruct caller as [uid|]; [cbn in Hc|discriminate].
    destruct (users s !! uid) as [u|] eqn:Hu.
    + rewrite (watchAd_run uid u now s Hc Hu).
      destruct (depositBoostCap u <=? adsWatchedToday (settle u now));
        [reflexivity|discriminate].
    + unfold watchAd. as_caller Hc.
      rewrite load_missing by exact Hu. reflexivity.
  - unfold watchAd. rewrite auth_rejected by exact Hc. reflexivity.
Qed.

(** One hour into the window the capped user is refused, and the hour of
    earnings the handler computed is not in the store. *)
Lemma watchAd_limit_no_write_witness :
  snd (watchAd (Some "u-cap") 3600000 capped_store) = Err DailyLimitReached
  /\ fst (watchAd (Some "u-cap") 3600000 capped_store) = capped_store.
Proof.
  assert (H : snd (watchAd (Some "u-cap") 3600000 capped_store)
              = Err DailyLimitReached) by (vm_compute; reflexivity).
  split; [exact H|].
  exact (watchAd_limit_no_write (Some "u-cap") 3600000 capped_store H).
Defined.

(** C6: for a stored user, watch-ad answers with the daily-limit error
    exactly when the settled record (daily reset applied if due) has
    [adsWatchedToday >= depositBoostCap].  With cap 50 and 50 ads watched it
    is refused inside the window; once 24 hours have passed since
    [lastResetTime] the same call succeeds and stores a record with
    [adsWatchedToday = 1] and the rate one increment above the base rate the
    reset put back. *)
Theorem watchAd_daily_limit (uid : string) (u : User) (now : Z) (s : Store)
    (Hid : truthy uid = true) (Hu : users s !! uid = Some u) :
  (snd (watchAd (Some uid) now s) = Err DailyLimitReached
   <-> depositBoostCap (settle u now) <= adsWatchedToday (settle u now))
  /\ (depositBoostCap u = 50 -> adsWatchedToday u = 50 ->
      now - lastResetTime u < DAY_MS ->
      watchAd (Some uid) now s = (s, Err DailyLimitReached))
  /\ (depositBoostCap u = 50 -> adsWatchedToday u = 50 ->
      DAY_MS <= now - lastResetTime u ->
      exists u',
        watchAd (Some uid) now s
        = (store_with_user uid u' s,
           Ok (mkAdBoost (currentMiningRate u') 1 (balance u')))
        /\ adsWatchedToday u' = 1
        /\ currentMiningRate u'
           = (currentMiningRate (settle u now) + AD_BOOST_INCREMENT)%Qc
        /\ currentMiningRate u' = (baseMiningRate u + AD_BOOST_INCREMENT)%Qc
        /\ balance u' = balance (settle u now)).
Proof.
  rewrite (watchAd_run uid u now s Hid Hu), settle_depositBoostCap.
  split; [|split].
  - destruct (Z.leb_spec (depositBoostCap u) (adsWatchedToday (settle u now)));
      cbn [snd]; split; intros; try reflexivity; try discriminate; lia.
  - intros Hcap Hads Hwin.
    destruct (settle_same_window u now Hwin) as (_ & Ha & _).
    rewrite Ha, Hcap, Hads. reflexivity.
  - intros Hcap Hads Hwin.
    destruct (settle_rollover u now Hwin) as (Hr & Ha & _).
    exists (boosted u now).
    assert (Hb : adsWatchedToday (boosted u now) = 1)
      by (unfold boosted; cbn [adsWatchedToday set_lastAdWatchTime
            set_adsWatchedToday]; rewrite Ha; reflexivity).
    rewrite Ha, Hcap, Hb. cbn [Z.leb Z.compare].
    repeat split. unfold boosted.
    cbn [currentMiningRate set_lastAdWatchTime set_adsWatchedToday
         set_currentMiningRate]. now rewrite Hr.
Qed.

(** The capped user, asked again 25 hours after the last reset. *)
Lemma watchAd_daily_limit_witness :
  exists u',
    watchAd (Some "u-cap") 90000000 capped_store
    = (store_with_user "u-cap" u' capped_store,
       Ok (mkAdBoost (currentMiningRate u') 1 (balance u')))
    /\ adsWatchedToday u' = 1
    /\ currentMiningRate u'
       = (currentMiningRate (settle capped_user 90000000) + AD_BOOST_INCREMENT)%Qc
    /\ currentMiningRate u' = (baseMiningRate capped_user + AD_BOOST_INCREMENT)%Qc
    /\ balance u' = balance (settle capped_user 90000000).
Proof.
  refine (proj2 (proj2 (watchAd_daily_limit "u-cap" capped_user 90000000
            capped_store _ _)) _ _ _).
  - reflexivity.
  - reflexivity.
  - reflexivity.
  - reflexivity.
  - unfold DAY_MS. cbn. lia.
Defined.

(** ** Referral linkage *)

Lemma eqb_ne (a b : string) : a <> b -> String.eqb a b = false.
Proof. intros H. now apply String.eqb_neq. Qed.

(** A successful linkage by a referee who has watched three ads or more:
    the referrer's record is written first, the referee's second. *)
Lemma applyReferral_with_bonus (uid rid code : string) (u r : User) (s : Store) :
  truthy uid = true -> users s !! uid = Some u ->
  truthy_opt (referredBy u) = false -> truthy code = true ->
  referrals s !! toUpperCase code = Some rid -> truthy rid = true ->
  rid <> uid -> users s !! rid = Some r ->
  REFERRAL_AD_THRESHOLD <= adsWatchedToday u ->
  applyReferral (Some uid) code s
  = (store_with_user uid (linked_referee rid u)
       (store_with_user rid (rewarded_referrer r) s), Ok tt).
Proof.
  intros Hid Hu Hfree Hcode Hidx Hrid Hne Hr Hads. unfold applyReferral.
  as_caller Hid. rewrite Hcode. cbn [negb].
  with_record u Hu. rewrite Hfree.
  unfold bind at 1. unfold kv_get_referral. rewrite Hidx.
  cbn [truthy_opt str_of]. rewrite Hrid. cbn [negb].
  rewrite (eqb_ne _ _ Hne).
  unfold bind at 1. unfold kv_get_user. rewrite Hr.
  cbn [adsWatchedToday set_referredBy].
  apply Z.leb_le in Hads. rewrite Hads. reflexivity.
Qed.

(** Below the threshold the link alone is stored. *)
Lemma applyReferral_without_bonus (uid rid code : string) (u r : User) (s : Store) :
  truthy uid = true -> users s !! uid = Some u ->
  truthy_opt (referredBy u) = false -> truthy code = true ->
  referrals s !! toUpperCase code = Some rid -> truthy rid = true ->
  rid <> uid -> users s !! rid = Some r ->
  adsWatchedToday u < REFERRAL_AD_THRESHOLD ->
  applyReferral (Some uid) code s
  = (store_with_user uid (set_referredBy (Some rid) u) s, Ok tt).
Proof.
  intros Hid Hu Hfree Hcode Hidx Hrid Hne Hr Hads. unfold applyReferral.
  as_caller Hid. rewrite Hcode. cbn [negb].
  with_record u Hu. rewrite Hfree.
  unfold bind at 1. unfold kv_get_referral. rewrite Hidx.
  cbn [truthy_opt str_of]. rewrite Hrid. cbn [negb].
  rewrite (eqb_ne _ _ Hne).
  unfold bind at 1. unfold kv_get_user. rewrite Hr.
  cbn [adsWatchedToday set_referredBy].
  apply Z.leb_gt in Hads. rewrite Hads. reflexivity.
Qed.

(** The amount the referrer's rate grows by is twenty ad increments. *)
Lemma referrer_rate_bonus_value :
  REFERRER_RATE_BONUS = (num 20 * AD_BOOST_INCREMENT)%Qc
  /\ REFERRER_RATE_BONUS <> (num 2 * AD_BOOST_INCREMENT)%Qc.
Proof.
  split.
  - apply Qc_is_canon. reflexivity.
  - literals_differ.
Qed.

(** C1 (the code at the failing input): the referee of [referral_store] has
    watched 3 ads and applies the referrer's code.  The call succeeds; the
    referee's rate grows by [REFEREE_BONUS_RATE] and the referrer's
    [referralCount] by 1, but the referrer's rate grows by [0.000002], which
    is twenty ad increments and not two. *)
Lemma applyReferral_referrer_rate_bonus :
  exists referee' referrer',
    let out := applyReferral (Some "5b1c2d3e-ref") "eco9f8e7d6c" referral_store in
    snd out = Ok tt
    /\ users (fst out) !! "5b1c2d3e-ref" = Some referee'
    /\ users (fst out) !! "9f8e7d6c-host" = Some referrer'
    /\ referredBy referee' = Some "9f8e7d6c-host"
    /\ currentMiningRate referee'
       = (currentMiningRate referee_user + REFEREE_BONUS_RATE)%Qc
    /\ referralCount referrer' = referralCount referrer_user + 1
    /\ currentMiningRate referrer'
       = (currentMiningRate referrer_user + num 20 * AD_BOOST_INCREMENT)%Qc
    /\ currentMiningRate referrer'
       <> (currentMiningRate referrer_user + num 2 * AD_BOOST_INCREMENT)%Qc.
Proof.
  exists (linked_referee "9f8e7d6c-host" referee_user),
         (rewarded_referrer referrer_user).
  cbv zeta.
  rewrite (applyReferral_with_bonus "5b1c2d3e-ref" "9f8e7d6c-host"
             "eco9f8e7d6c" referee_user referrer_user referral_store);
    try reflexivity; try discriminate.
  cbn [fst snd store_with_user users].
  split; [reflexivity|]. split; [apply lookup_insert_eq|].
  split; [rewrite lookup_insert_ne by discriminate; apply lookup_insert_eq|].
  split; [reflexivity|]. split; [reflexivity|]. split; [reflexivity|].
  unfold rewarded_referrer.
  cbn [currentMiningRate set_referralCount set_currentMiningRate].
  split.
  - now rewrite (proj1 referrer_rate_bonus_value).
  - literals_differ.
Qed.

(** C7: once [referredBy] is set, a call that supplies a code is answered
    with the already-referred error whatever the code is, and the store is
    left as it was: the check comes before the index is read and before any
    write. *)
Theorem applyReferral_already_referred (uid code : string) (u : User) (s : Store)
    (Hid : truthy uid = true) (Hu : users s !! uid = Some u)
    (Hset : truthy_opt (referredBy u) = true) (Hcode : truthy code = true) :
  applyReferral (Some uid) code s = (s, Err AlreadyReferred).
Proof.
  unfold applyReferral. as_caller Hid. rewrite Hcode. cbn [negb].
  with_record u Hu. rewrite Hset. reflexivity.
Qed.

(** A second call is refused for the referrer's code, for the referee's own
    code and for a code nobody owns. *)
Lemma applyReferral_already_referred_witness :
  applyReferral (Some "5b1c2d3e-ref") "ECO9F8E7D6C" linked_store
    = (linked_store, Err AlreadyReferred)
  /\ applyReferral (Some "5b1c2d3e-ref") "ECO5B1C2D3E" linked_store
    = (linked_store, Err AlreadyReferred)
  /\ applyReferral (Some "5b1c2d3e-ref") "ECO00000000" linked_store
    = (linked_store, Err AlreadyReferred).
Proof.
  pose (u := linked_referee "9f8e7d6c-host" referee_user).
  assert (Hu : users linked_store !! "5b1c2d3e-ref" = Some u)
    by apply lookup_insert_eq.
  split; [|split];
    apply (applyReferral_already_referred "5b1c2d3e-ref" _ u linked_store);
    solve [reflexivity | exact Hu].
Defined.

(** ** The one-time referrer credit *)

Lemma Qcltb_0_pos (x : Qc) : (0 < x)%Qc -> Qcltb (num 0) x = true.
Proof. intros H. rewrite num_0. now apply Qcltb_lt. Qed.





(** ** Deposit boost *)

Lemma at_least_minimum_nonzero (m amount : Qc) :
  (0 < m)%Qc -> (m <= amount)%Qc -> Qeq_bool amount (num 0) = false.
Proof.
  intros Hm H. destruct (Qeq_bool amount (num 0)) eqn:E; [|reflexivity].
  apply Qeq_bool_num_0 in E. subst amount.
  now apply Qcle_not_lt in H.
Qed.

(** C9: for a stored user, a deposit of at least [MINIMUM_DEPOSIT] writes
    back the user's record with [depositBoostCap] raised by
    [floor(amount / 2) * 50] and every other field as it was (balance,
    totalMined, currentMiningRate and adsWatchedToday among them), and
    touches nothing else in the store; a smaller amount is answered with the
    below-minimum error and the store is left as it was. *)
Theorem depositBoost_cap_only (uid : string) (u : User) (amount : Qc) (s : Store)
    (Hid : truthy uid = true) (Hu : users s !! uid = Some u) :
  ((MINIMUM_DEPOSIT <= amount)%Qc ->
   exists u',
     depositBoost (Some uid) amount s
     = (store_with_user uid u' s, Ok (depositBoostCap u'))
     /\ depositBoostCap u'
        = depositBoostCap u + Math_floor (amount / num 2)%Qc * 50
     /\ set_depositBoostCap (depositBoostCap u) u' = u
     /\ balance u' = balance u
     /\ totalMined u' = totalMined u
     /\ currentMiningRate u' = currentMiningRate u
     /\ adsWatchedToday u' = adsWatchedToday u)
  /\ ((amount < MINIMUM_DEPOSIT)%Qc ->
      depositBoost (Some uid) amount s = (s, Err BelowMinimumDeposit)).
Proof.
  split; intros Hamt; unfold depositBoost; as_caller Hid.
  - rewrite (at_least_minimum_nonzero MINIMUM_DEPOSIT amount)
      by (try exact Hamt; apply num_pos; lia).
    apply Qcltb_ge in Hamt. rewrite Hamt. cbn [orb].
    with_record u Hu.
    exists (set_depositBoostCap
              (depositBoostCap u + Math_floor (amount / num 2)%Qc * 50) u).
    repeat split. now destruct u.
  - apply Qcltb_lt in Hamt. rewrite Hamt, orb_true_r. reflexivity.
Qed.

(** A deposit of $5 raises the cap from 50 to 150; a deposit of $1.99 is
    refused. *)
Lemma depositBoost_cap_only_witness :
  (exists u',
     depositBoost (Some "c0ffee00-new") (num 5) fresh_store
     = (store_with_user "c0ffee00-new" u' fresh_store, Ok (depositBoostCap u'))
     /\ depositBoostCap u' = 150
     /\ set_depositBoostCap 50 u' = fresh_user)
  /\ depositBoost (Some "c0ffee00-new") (lit 199 100) fresh_store
     = (fresh_store, Err BelowMinimumDeposit).
Proof.
  destruct (depositBoost_cap_only "c0ffee00-new" fresh_user (num 5) fresh_store
              eq_refl eq_refl) as [Hok _].
  destruct (depositBoost_cap_only "c0ffee00-new" fresh_user (lit 199 100)
              fresh_store eq_refl eq_refl) as [_ Hlow].
  split.
  - destruct Hok as (u' & Hrun & Hcap & Hrest & _).
    + apply Qcleb_le. reflexivity.
    + exists u'. split; [exact Hrun|]. split; [exact Hcap|exact Hrest].
  - apply Hlow. apply Qcltb_lt. reflexivity.
Defined.

(** ** Withdrawal requests *)

Lemma requestWithdrawal_accepted (uid : string) (u : User) (now : Z)
    (amount : Qc) (eco full : string) (s : Store) :
  truthy uid = true -> users s !! uid = Some u ->
  withdrawal_accepted u now amount eco full ->
  requestWithdrawal (Some uid) now amount eco full s
  = (store_after_withdrawal uid u now amount eco full s,
     Ok (mkReceipt ("withdrawal:" +:+ withdrawalKey uid now)
           (balance u - amount)%Qc)).
Proof.
  intros Hid Hu (Hnz & Heco & Hfull & Helig & Hmin & Hbal).
  unfold requestWithdrawal. as_caller Hid.
  assert (Hz : Qeq_bool amount (num 0) = false).
  { destruct (Qeq_bool amount (num 0)) eqn:E; [|reflexivity].
    now apply Qeq_bool_num_0 in E. }
  rewrite Hz, Heco, Hfull. cbn [negb orb].
  with_record u Hu.
  apply Z.ltb_ge in Helig. rewrite Helig.
  apply Qcltb_ge in Hmin. rewrite Hmin.
  apply Qcltb_ge in Hbal. rewrite Hbal. reflexivity.
Qed.

Lemma requestWithdrawal_refused (uid : string) (u : User) (now : Z)
    (amount : Qc) (eco full : string) (s : Store) :
  truthy uid = true -> users s !! uid = Some u ->
  ~ withdrawal_accepted u now amount eco full ->
  exists e, requestWithdrawal (Some uid) now amount eco full s = (s, Err e).
Proof.
  intros Hid Hu Hno. unfold requestWithdrawal. as_caller Hid.
  destruct (Qeq_bool amount (num 0)) eqn:Hz;
    [eexists; reflexivity|].
  destruct (truthy eco) eqn:Heco; [|eexists; reflexivity].
  destruct (truthy full) eqn:Hfull; [|eexists; reflexivity].
  cbn [negb orb]. with_record u Hu.
  destruct (now <? withdrawEligibleAt u) eqn:Helig; [eexists; reflexivity|].
  destruct (Qcltb amount MINIMUM_WITHDRAWAL) eqn:Hmin; [eexists; reflexivity|].
  destruct (Qcltb (balance u) amount) eqn:Hbal; [eexists; reflexivity|].
  exfalso. apply Hno. repeat split; try assumption.
  - intros ->. rewrite <- num_0 in Hz.
    assert (Qeq_bool (num 0) (num 0) = true) by now apply Qeq_bool_num_0, num_0.
    congruence.
  - now apply Z.ltb_ge.
  - now apply Qcltb_ge.
  - now apply Qcltb_ge.
Qed.

Lemma withdrawal_accepted_dec (u : User) (now : Z) (amount : Qc)
    (eco full : string) :
  withdrawal_accepted u now amount eco full
  \/ ~ withdrawal_accepted u now amount eco full.
Proof.
  unfold withdrawal_accepted.
  destruct (decide (amount = 0%Qc)); [right; tauto|].
  destruct (truthy eco); [|right; intuition discriminate].
  destruct (truthy full); [|right; intuition discriminate].
  destruct (Z_le_dec (withdrawEligibleAt u) now); [|right; tauto].
  destruct (Qclt_le_dec amount MINIMUM_WITHDRAWAL) as [H|H];
    [right; intros (_ & _ & _ & _ & H' & _); now apply Qcle_not_lt in H'|].
  destruct (Qclt_le_dec (balance u) amount) as [H'|H'];
    [right; intros (_ & _ & _ & _ & _ & H''); now apply Qcle_not_lt in H''|].
  left. tauto.
Qed.

(** Every error of request-withdrawal comes before its first write. *)
Lemma requestWithdrawal_error_no_write (caller : option string) (now : Z)
    (amount : Qc) (eco full : string) (s : Store) (e : Error) :
  snd (requestWithdrawal caller now amount eco full s) = Err e ->
  fst (requestWithdrawal caller now amount eco full s) = s.
Proof.
  destruct (truthy_opt caller) eqn:Hc.
  - destruct caller as [uid|]; [cbn in Hc|discriminate].
    destruct (users s !! uid) as [u|] eqn:Hu.
    + destruct (withdrawal_accepted_dec u now amount eco full) as [Hok|Hno].
      * rewrite (requestWithdrawal_accepted uid u now amount eco full s Hc Hu Hok).
        discriminate.
      * destruct (requestWithdrawal_refused uid u now amount eco full s Hc Hu Hno)
          as [e' ->]. reflexivity.
    + unfold requestWithdrawal. as_caller Hc.
      destruct (_ || _ || _)%bool; [reflexivity|].
      rewrite load_missing by exact Hu. reflexivity.
  - unfold requestWithdrawal. rewrite auth_rejected by exact Hc. reflexivity.
Qed.

(** A read adds no store to the trace. *)
Lemma tbind_reading {A B} (h : Handler A) (k : A -> Traced B) (s : Store) :
  tbind (reading h) k s
  = match h s with
    | (s', Ok a) => k a s'
    | (s', Err e) => ([], (s', Err e))
    end.
Proof.
  unfold tbind, reading. destruct (h s) as [s' [a|e]]; [|reflexivity].
  cbn [app]. destruct (k a s'); reflexivity.
Qed.

Lemma authenticateUser_ok (uid : string) (s : Store) :
  truthy uid = true -> authenticateUser (Some uid) s = (s, Ok uid).
Proof. intros H. unfold authenticateUser. rewrite H. reflexivity. Qed.

Lemma loadUser_ok (uid : string) (u : User) (s : Store) :
  users s !! uid = Some u -> loadUser uid s = (s, Ok u).
Proof.
  intros H. unfold loadUser, bind, kv_get_user, ret. rewrite H. reflexivity.
Qed.

(** The traced handler is the handler: same store after the call, same
    response. *)
Lemma requestWithdrawal_traced_agrees (caller : option string) (now : Z)
    (amount : Qc) (eco full : string) (s : Store) :
  snd (requestWithdrawal_traced caller now amount eco full s)
  = requestWithdrawal caller now amount eco full s.
Proof.
  unfold requestWithdrawal_traced, requestWithdrawal.
  rewrite tbind_reading. unfold bind at 1.
  destruct (authenticateUser caller s) as [s0 [uid|e]]; [|reflexivity].
  destruct (_ || _ || _)%bool; [reflexivity|].
  rewrite tbind_reading. unfold bind at 1.
  destruct (loadUser uid s0) as [s1 [u|e]]; [|reflexivity].
  destruct (now <? withdrawEligibleAt u); [reflexivity|].
  destruct (Qcltb amount MINIMUM_WITHDRAWAL); [reflexivity|].
  destruct (Qcltb (balance u) amount); reflexivity.
Qed.

Lemma requestWithdrawal_traced_accepted (uid : string) (u : User) (now : Z)
    (amount : Qc) (eco full : string) (s : Store) :
  truthy uid = true -> users s !! uid = Some u ->
  withdrawal_accepted u now amount eco full ->
  fst (requestWithdrawal_traced (Some uid) now amount eco full s)
  = [store_with_record uid now amount eco full s;
     store_after_withdrawal uid u now amount eco full s].
Proof.
  intros Hid Hu (Hnz & Heco & Hfull & Helig & Hmin & Hbal).
  unfold requestWithdrawal_traced.
  assert (Hz : Qeq_bool amount (num 0) = false).
  { destruct (Qeq_bool amount (num 0)) eqn:E; [|reflexivity].
    now apply Qeq_bool_num_0 in E. }
  rewrite tbind_reading, (authenticateUser_ok uid s Hid).
  rewrite Hz, Heco, Hfull. cbn [negb orb].
  rewrite tbind_reading, (loadUser_ok uid u s Hu).
  apply Z.ltb_ge in Helig. rewrite Helig.
  apply Qcltb_ge in Hmin. rewrite Hmin.
  apply Qcltb_ge in Hbal. rewrite Hbal. reflexivity.
Qed.

Lemma requestWithdrawal_traced_refused (uid : string) (u : User) (now : Z)
    (amount : Qc) (eco full : string) (s : Store) :
  truthy uid = true -> users s !! uid = Some u ->
  ~ withdrawal_accepted u now amount eco full ->
  fst (requestWithdrawal_traced (Some uid) now amount eco full s) = [].
Proof.
  intros Hid Hu Hno.
  unfold requestWithdrawal_traced.
  rewrite tbind_reading, (authenticateUser_ok uid s Hid).
  destruct (Qeq_bool amount (num 0)) eqn:Hz; [reflexivity|].
  destruct (truthy eco) eqn:Heco; [|reflexivity].
  destruct (truthy full) eqn:Hfull; [|reflexivity].
  cbn [negb orb]. rewrite tbind_reading, (loadUser_ok uid u s Hu).
  destruct (now <? withdrawEligibleAt u) eqn:Helig; [reflexivity|].
  destruct (Qcltb amount MINIMUM_WITHDRAWAL) eqn:Hmin; [reflexivity|].
  destruct (Qcltb (balance u) amount) eqn:Hbal; [reflexivity|].
  exfalso. apply Hno. repeat split; try assumption.
  - intros E. apply Qeq_bool_num_0 in E. congruence.
  - now apply Z.ltb_ge.
  - now apply Qcltb_ge.
  - now apply Qcltb_ge.
Qed.

(** C4 (as stated, refuted): the two writes of a granted request are not
    seen together.  For the request of 100 by [funded_user] at time 5000 the
    store after the first write holds the pending record while the balance is
    still 250.  And two granted requests of the same user at the same server
    time, of 100 and of 150, take the balance from 250 to 0 and leave one
    record. *)
Lemma requestWithdrawal_record_before_debit :
  let key := withdrawalKey "d00d1e55-pay" 5000 in
  let states :=
    fst (requestWithdrawal_traced (Some "d00d1e55-pay") 5000 (num 100)
           "0771234567" "Pay" funded_store) in
  let s1 := fst (requestWithdrawal (Some "d00d1e55-pay") 5000 (num 100)
                   "0771234567" "Pay" funded_store) in
  let s2 := fst (requestWithdrawal (Some "d00d1e55-pay") 5000 (num 150)
                   "0771234567" "Pay" s1) in
  ~ written_together "d00d1e55-pay" funded_user (num 100) key states
  /\ (exists mid, mid ∈ states
        /\ record_visible key mid
        /\ users mid !! "d00d1e55-pay" = Some funded_user
        /\ balance funded_user = num 250)
  /\ (exists u2, users s2 !! "d00d1e55-pay" = Some u2 /\ balance u2 = num 0)
  /\ size (withdrawals s2) = 1%nat.
Proof.
  cbv zeta.
  set (mid := store_with_record "d00d1e55-pay" 5000 (num 100) "0771234567"
                "Pay" funded_store).
  assert (Hok : withdrawal_accepted funded_user 5000 (num 100) "0771234567"
                  "Pay").
  { unfold withdrawal_accepted. split; [literals_differ|].
    split; [reflexivity|]. split; [reflexivity|]. split; [cbn; lia|].
    split; apply Qcleb_le; reflexivity. }
  rewrite (requestWithdrawal_traced_accepted "d00d1e55-pay" funded_user 5000
             (num 100) "0771234567" "Pay" funded_store eq_refl eq_refl Hok).
  assert (Hin : mid ∈ [mid; store_after_withdrawal "d00d1e55-pay" funded_user
                              5000 (num 100) "0771234567" "Pay" funded_store])
    by apply list_elem_of_here.
  assert (Hrec : record_visible (withdrawalKey "d00d1e55-pay" 5000) mid)
    by (eexists; apply lookup_insert_eq).
  assert (Hbal : users mid !! "d00d1e55-pay" = Some funded_user)
    by reflexivity.
  split; [|split; [|split]].
  - intros H. destruct (proj2 (H mid Hin) Hrec) as (u' & Hu' & Hb).
    rewrite Hbal in Hu'. injection Hu' as <-. revert Hb. literals_differ.
  - exists mid. split; [exact Hin|]. split; [exact Hrec|].
    split; [exact Hbal|reflexivity].
  - eexists. split; [vm_compute; reflexivity|].
    apply Qc_is_canon. reflexivity.
  - vm_compute. reflexivity.
Qed.

(** C4 (amended): for a stored user, a granted request answers with the new
    balance and leaves, once both writes are done, the requester's record
    with [balance] lowered by exactly [amount] and a withdrawal record with
    status [pending] and no [processedAt] under the key [userId:now].  The
    record is written first and the
    debit second: the call passes through the store with the record alone and
    then the final store, so the debit never shows without the record.  A
    request that is not granted answers with an error, writes nothing and
    leaves the store as it was. *)
Theorem requestWithdrawal_debit_and_record (uid : string) (u : User) (now : Z)
    (amount : Qc) (eco full : string) (s : Store)
    (Hid : truthy uid = true) (Hu : users s !! uid = Some u) :
  let out := requestWithdrawal (Some uid) now amount eco full s in
  let run := requestWithdrawal_traced (Some uid) now amount eco full s in
  snd run = out
  /\ ((exists receipt, snd out = Ok receipt)
      -> withdrawal_accepted u now amount eco full)
  /\ (withdrawal_accepted u now amount eco full ->
      snd out = Ok (mkReceipt ("withdrawal:" +:+ withdrawalKey uid now)
                      (balance u - amount)%Qc)
      /\ fst out = store_after_withdrawal uid u now amount eco full s
      /\ (exists u', users (fst out) !! uid = Some u'
            /\ balance u' = (balance u - amount)%Qc)
      /\ (exists w, withdrawals (fst out) !! withdrawalKey uid now = Some w
            /\ w_userId w = uid /\ w_amount w = amount
            /\ w_status w = pending /\ w_processedAt w = None)
      /\ fst run = [store_with_record uid now amount eco full s; fst out]
      /\ (forall st, st ∈ fst run ->
            record_visible (withdrawalKey uid now) st))
  /\ (~ withdrawal_accepted u now amount eco full ->
      (exists e, out = (s, Err e)) /\ fst run = []).
Proof.
  cbv zeta. split; [apply requestWithdrawal_traced_agrees|].
  destruct (withdrawal_accepted_dec u now amount eco full) as [Hok|Hno].
  - rewrite (requestWithdrawal_accepted uid u now amount eco full s Hid Hu Hok).
    rewrite (requestWithdrawal_traced_accepted uid u now amount eco full s
               Hid Hu Hok).
    cbn [fst snd]. split; [intros _; exact Hok|].
    split; [intros _|intros Hno; contradiction].
    split; [reflexivity|]. split; [reflexivity|].
    split. { eexists. split; [apply lookup_insert_eq|reflexivity]. }
    split. { exists (pending_withdrawal uid now amount eco full).
             split; [apply lookup_insert_eq|]. split; [reflexivity|].
             split; [reflexivity|]. split; reflexivity. }
    split; [reflexivity|].
    intros st Hst. unfold record_visible.
    apply elem_of_cons in Hst as [->|Hst];
      [|apply elem_of_cons in Hst as [->|Hst];
        [|now apply elem_of_nil in Hst]];
      eexists; apply lookup_insert_eq.
  - destruct (requestWithdrawal_refused uid u now amount eco full s Hid Hu Hno)
      as [e He].
    rewrite He.
    rewrite (requestWithdrawal_traced_refused uid u now amount eco full s
               Hid Hu Hno).
    cbn [fst snd]. split; [intros [receipt H]; discriminate|].
    split; [intros Hok; contradiction|]. intros _.
    split; [now exists e|reflexivity].
Qed.

(** The request of 100 by [funded_user] at time 5000 is granted: the answer
    names the new balance, the stored balance is 250 - 100, the pending
    record is under ["d00d1e55-pay:5000"], and the call passes through the
    store with the record alone. *)
Lemma requestWithdrawal_debit_and_record_witness :
  let out := requestWithdrawal (Some "d00d1e55-pay") 5000 (num 100)
               "0771234567" "Pay" funded_store in
  let run := requestWithdrawal_traced (Some "d00d1e55-pay") 5000 (num 100)
               "0771234567" "Pay" funded_store in
  snd out = Ok (mkReceipt ("withdrawal:" +:+ withdrawalKey "d00d1e55-pay" 5000)
                  (balance funded_user - num 100)%Qc)
  /\ (exists u', users (fst out) !! "d00d1e55-pay" = Some u'
        /\ balance u' = (balance funded_user - num 100)%Qc)
  /\ (exists w, withdrawals (fst out) !! withdrawalKey "d00d1e55-pay" 5000
                = Some w
        /\ w_userId w = "d00d1e55-pay" /\ w_amount w = num 100
        /\ w_status w = pending /\ w_processedAt w = None)
  /\ fst run = [store_with_record "d00d1e55-pay" 5000 (num 100) "0771234567"
                  "Pay" funded_store; fst out].
Proof.
  destruct (requestWithdrawal_debit_and_record "d00d1e55-pay" funded_user 5000
              (num 100) "0771234567" "Pay" funded_store eq_refl eq_refl)
    as (_ & _ & Hgranted & _).
  destruct Hgranted as (Hans & _ & Hdebit & Hrecord & Hrun & _).
  - unfold withdrawal_accepted. split; [literals_differ|].
    split; [reflexivity|]. split; [reflexivity|]. split; [cbn; lia|].
    split; apply Qcleb_le; reflexivity.
  - split; [exact Hans|]. split; [exact Hdebit|].
    split; [exact Hrecord|exact Hrun].
Defined.

(** ** Withdrawal and settlement *)

(** C2 (as stated, refuted): ten seconds after the last settlement the
    settled balance is 109, and a handler that settled first would grant a
    withdrawal of 100; the code compares 100 with the stored 99, answers
    insufficient balance and stores nothing. *)
Lemma requestWithdrawal_skips_settlement :
  requestWithdrawal (Some "57a1e000-old") 10000 (num 100) "0771234567" "Old"
    stale_store = (stale_store, Err InsufficientBalance)
  /\ balance (settle stale_user 10000) = num 109
  /\ (exists receipt,
        snd (requestWithdrawal_settling_first (Some "57a1e000-old") 10000
               (num 100) "0771234567" "Old" stale_store) = Ok receipt)
  /\ ~ settles_before_checks (Some "57a1e000-old") 10000 (num 100)
         "0771234567" "Old" stale_store.
Proof.
  assert (Hcode : requestWithdrawal (Some "57a1e000-old") 10000 (num 100)
                    "0771234567" "Old" stale_store
                  = (stale_store, Err InsufficientBalance)) by reflexivity.
  split; [exact Hcode|].
  split; [apply Qc_is_canon; reflexivity|].
  split; [eexists; vm_compute; reflexivity|].
  unfold settles_before_checks. rewrite Hcode. intros H.
  apply (f_equal snd) in H. vm_compute in H. discriminate.
Qed.

(** C2 (amended): request-withdrawal does not settle.  For a stored user
    the request is granted exactly when the fields are present, the
    eligibility time has come, the amount is at least the minimum and at
    most the balance as stored.  When it is granted, the answer and the
    stored record have the stored balance lowered by [amount], and
    [totalMined] and [miningStartTime] are as stored.  When it is refused,
    nothing is written: the record in the store is the stored one. *)
Theorem requestWithdrawal_reads_stored_record (uid : string) (u : User)
    (now : Z) (amount : Qc) (eco full : string) (s : Store)
    (Hid : truthy uid = true) (Hu : users s !! uid = Some u) :
  let out := requestWithdrawal (Some uid) now amount eco full s in
  ((exists receipt, snd out = Ok receipt)
   <-> withdrawal_accepted u now amount eco full)
  /\ (forall receipt, snd out = Ok receipt ->
        wr_newBalance receipt = (balance u - amount)%Qc
        /\ exists u', users (fst out) !! uid = Some u'
             /\ balance u' = (balance u - amount)%Qc
             /\ totalMined u' = totalMined u
             /\ miningStartTime u' = miningStartTime u)
  /\ (forall e, snd out = Err e ->
        fst out = s /\ users (fst out) !! uid = Some u).
Proof.
  cbv zeta.
  destruct (withdrawal_accepted_dec u now amount eco full) as [Hok|Hno].
  - rewrite (requestWithdrawal_accepted uid u now amount eco full s Hid Hu Hok).
    cbn [fst snd]. split; [|split].
    + split; [intros _; exact Hok|intros _; eexists; reflexivity].
    + intros receipt H. injection H as <-. split; [reflexivity|].
      exists (set_balance (balance u - amount)%Qc u).
      split; [apply lookup_insert_eq|]. split; [reflexivity|].
      split; reflexivity.
    + intros e H. discriminate.
  - destruct (requestWithdrawal_refused uid u now amount eco full s Hid Hu Hno)
      as [e ->].
    cbn [fst snd]. split; [|split].
    + split; [intros [receipt H]; discriminate|intros H; contradiction].
    + intros receipt H. discriminate.
    + intros e' _. split; [reflexivity|exact Hu].
Qed.

(** The stale user's request of 100 at time 10000 is refused although ten
    seconds of earnings are due, and the stored record is untouched; the
    funded user's request of 100 at time 5000 is granted out of the stored
    250. *)
Lemma requestWithdrawal_reads_stored_record_witness :
  (snd (requestWithdrawal (Some "57a1e000-old") 10000 (num 100) "0771234567"
          "Old" stale_store) = Err InsufficientBalance
   /\ fst (requestWithdrawal (Some "57a1e000-old") 10000 (num 100)
             "0771234567" "Old" stale_store) = stale_store
   /\ users (fst (requestWithdrawal (Some "57a1e000-old") 10000 (num 100)
                    "0771234567" "Old" stale_store)) !! "57a1e000-old"
      = Some stale_user)
  /\ (exists receipt,
        snd (requestWithdrawal (Some "d00d1e55-pay") 5000 (num 100)
               "0771234567" "Pay" funded_store) = Ok receipt
        /\ wr_newBalance receipt = (balance funded_user - num 100)%Qc
        /\ exists u',
             users (fst (requestWithdrawal (Some "d00d1e55-pay") 5000
                           (num 100) "0771234567" "Pay" funded_store))
               !! "d00d1e55-pay" = Some u'
             /\ balance u' = (balance funded_user - num 100)%Qc
             /\ totalMined u' = totalMined funded_user
             /\ miningStartTime u' = miningStartTime funded_user).
Proof.
  destruct (requestWithdrawal_reads_stored_record "57a1e000-old" stale_user
              10000 (num 100) "0771234567" "Old" stale_store eq_refl eq_refl)
    as (_ & _ & Hrefused).
  destruct (requestWithdrawal_reads_stored_record "d00d1e55-pay" funded_user
              5000 (num 100) "0771234567" "Pay" funded_store eq_refl eq_refl)
    as (Hiff & Hgranted & _).
  split.
  - assert (E : snd (requestWithdrawal (Some "57a1e000-old") 10000 (num 100)
                       "0771234567" "Old" stale_store)
                = Err InsufficientBalance) by reflexivity.
    split; [exact E|]. exact (Hrefused InsufficientBalance E).
  - destruct (proj2 Hiff) as [receipt Hr].
    + unfold withdrawal_accepted. split; [literals_differ|].
      split; [reflexivity|]. split; [reflexivity|]. split; [cbn; lia|].
      split; apply Qcleb_le; reflexivity.
    + exists receipt. split; [exact Hr|]. exact (Hgranted receipt Hr).
Defined.

(** * Further properties of the server *)

(** ** Referral codes *)

Lemma upper_ascii_idempotent (c : Ascii.ascii) :
  upper_ascii (upper_ascii c) = upper_ascii c.
Proof. destruct c as [[] [] [] [] [] [] [] []]; reflexivity. Qed.

Lemma toUpperCase_idempotent (s : string) :
  toUpperCase (toUpperCase s) = toUpperCase s.
Proof.
  induction s as [|c r IH]; cbn [toUpperCase]; [reflexivity|].
  now rewrite upper_ascii_idempotent, IH.
Qed.

Lemma toUpperCase_app (a b : string) :
  toUpperCase (a +:+ b) = toUpperCase a +:+ toUpperCase b.
Proof.
  induction a as [|c r IH]; [reflexivity|].
  change (toUpperCase (String c (r +:+ b))
          = String (upper_ascii c) (toUpperCase r +:+ toUpperCase b)).
  cbn [toUpperCase]. now rewrite IH.
Qed.

Lemma generateReferralCode_upper (uid : string) :
  toUpperCase (generateReferralCode uid) = generateReferralCode uid.
Proof.
  unfold generateReferralCode.
  now rewrite toUpperCase_app, toUpperCase_idempotent.
Qed.

Lemma upper_truthy (code : string) :
  truthy (toUpperCase code) = truthy code.
Proof. now destruct code. Qed.

Lemma generateReferralCode_truthy (uid : string) :
  truthy (generateReferralCode uid) = true.
Proof. reflexivity. Qed.

(** ** Signing up *)

(** The store a successful signup leaves. *)
Lemma signup_done (e p n uid : string) (now : Z) (s : Store) :
  truthy e = true -> truthy p = true -> truthy n = true ->
  signup e p n (CreatedUser uid) now s
  = (mkStore (<[uid := initialUser uid e n now]> (users s))
       (<[generateReferralCode uid := uid]> (referrals s))
       (bonuses s) (withdrawals s),
     SignupDone uid (generateReferralCode uid)).
Proof. intros He Hp Hn. unfold signup. rewrite He, Hp, Hn. reflexivity. Qed.

(** A code typed in any case by a user who is not linked yet resolves to
    the account created by signup: the call succeeds and the caller's stored
    [referredBy] is the new account's id. *)
Theorem signup_code_links (e p n uid vid code : string) (v : User) (now : Z)
    (s : Store)
    (He : truthy e = true) (Hp : truthy p = true) (Hn : truthy n = true)
    (Huid : truthy uid = true) (Hvid : truthy vid = true)
    (Hne : uid <> vid) (Hv : users s !! vid = Some v)
    (Hfree : truthy_opt (referredBy v) = false)
    (Hcode : toUpperCase code = generateReferralCode uid) :
  let s1 := fst (signup e p n (CreatedUser uid) now s) in
  let out := applyReferral (Some vid) code s1 in
  snd out = Ok tt
  /\ exists v', users (fst out) !! vid = Some v'
       /\ referredBy v' = Some uid.
Proof.
  cbv zeta. rewrite (signup_done e p n uid now s He Hp Hn). cbn [fst].
  set (s1 := mkStore _ _ _ _).
  assert (Hv1 : users s1 !! vid = Some v)
    by (subst s1; cbn [users]; now rewrite lookup_insert_ne).
  assert (Hu1 : users s1 !! uid = Some (initialUser uid e n now))
    by (subst s1; cbn [users]; apply lookup_insert_eq).
  assert (Hidx : referrals s1 !! toUpperCase code = Some uid)
    by (subst s1; cbn [referrals]; rewrite Hcode; apply lookup_insert_eq).
  assert (Htc : truthy code = true)
    by (rewrite <- upper_truthy, Hcode; reflexivity).
  destruct (Z_le_gt_dec REFERRAL_AD_THRESHOLD (adsWatchedToday v)) as [Hads|Hads].
  - rewrite (applyReferral_with_bonus vid uid code v _ s1
               Hvid Hv1 Hfree Htc Hidx Huid Hne Hu1 Hads).
    split; [reflexivity|]. eexists. split; [apply lookup_insert_eq|reflexivity].
  - rewrite (applyReferral_without_bonus vid uid code v _ s1
               Hvid Hv1 Hfree Htc Hidx Huid Hne Hu1) by lia.
    split; [reflexivity|]. eexists. split; [apply lookup_insert_eq|reflexivity].
Qed.

Lemma signup_code_links_witness :
  let s1 := fst (signup "new@example.org" "secret" "New"
                   (CreatedUser "c0ffee00-new") 1000 referral_store) in
  let out := applyReferral (Some "5b1c2d3e-ref") "ecoc0ffee00" s1 in
  snd out = Ok tt
  /\ exists v', users (fst out) !! "5b1c2d3e-ref" = Some v'
       /\ referredBy v' = Some "c0ffee00-new".
Proof.
  apply (signup_code_links "new@example.org" "secret" "New" "c0ffee00-new"
           "5b1c2d3e-ref" "ecoc0ffee00" referee_user 1000 referral_store);
    try reflexivity.
  discriminate.
Defined.

(** The code is made of the first eight characters of the id only: two
    accounts whose ids agree on them get the same code, and the later signup
    takes the code over in the index. *)
Theorem signup_code_collision (e1 p1 n1 e2 p2 n2 uid1 uid2 : string)
    (t1 t2 : Z) (s : Store)
    (He1 : truthy e1 = true) (Hp1 : truthy p1 = true) (Hn1 : truthy n1 = true)
    (He2 : truthy e2 = true) (Hp2 : truthy p2 = true) (Hn2 : truthy n2 = true)
    (Hsame : String.substring 0 8 uid1 = String.substring 0 8 uid2) :
  let s1 := fst (signup e1 p1 n1 (CreatedUser uid1) t1 s) in
  let s2 := fst (signup e2 p2 n2 (CreatedUser uid2) t2 s1) in
  generateReferralCode uid1 = generateReferralCode uid2
  /\ referrals s1 !! generateReferralCode uid1 = Some uid1
  /\ referrals s2 !! generateReferralCode uid1 = Some uid2.
Proof.
  cbv zeta. rewrite (signup_done e1 p1 n1 uid1 t1 s He1 Hp1 Hn1). cbn [fst].
  rewrite (signup_done e2 p2 n2 uid2 t2 _ He2 Hp2 Hn2). cbn [fst referrals].
  assert (Hc : generateReferralCode uid1 = generateReferralCode uid2)
    by (unfold generateReferralCode; now rewrite Hsame).
  split; [exact Hc|]. split; [apply lookup_insert_eq|].
  rewrite Hc. apply lookup_insert_eq.
Qed.

Lemma signup_code_collision_witness :
  let s1 := fst (signup "a@example.org" "pw-a" "A"
                   (CreatedUser "0a1b2c3d-aaaa") 1000 empty_store) in
  let s2 := fst (signup "b@example.org" "pw-b" "B"
                   (CreatedUser "0a1b2c3d-bbbb") 2000 s1) in
  generateReferralCode "0a1b2c3d-aaaa" = generateReferralCode "0a1b2c3d-bbbb"
  /\ referrals s1 !! generateReferralCode "0a1b2c3d-aaaa" = Some "0a1b2c3d-aaaa"
  /\ referrals s2 !! generateReferralCode "0a1b2c3d-aaaa" = Some "0a1b2c3d-bbbb".
Proof.
  apply (signup_code_collision "a@example.org" "pw-a" "A" "b@example.org"
           "pw-b" "B" "0a1b2c3d-aaaa" "0a1b2c3d-bbbb" 1000 2000 empty_store);
    reflexivity.
Defined.

(** A new account applying its own code, in any case, is refused as a
    self-referral and the store stays as signup left it. *)
Theorem signup_own_code_refused (e p n uid code : string) (now : Z) (s : Store)
    (He : truthy e = true) (Hp : truthy p = true) (Hn : truthy n = true)
    (Huid : truthy uid = true)
    (Hcode : toUpperCase code = generateReferralCode uid) :
  let s1 := fst (signup e p n (CreatedUser uid) now s) in
  applyReferral (Some uid) code s1 = (s1, Err SelfReferral).
Proof.
  cbv zeta. rewrite (signup_done e p n uid now s He Hp Hn). cbn [fst].
  set (s1 := mkStore _ _ _ _).
  unfold applyReferral. as_caller Huid.
  assert (Htc : truthy code = true)
    by (rewrite <- upper_truthy, Hcode; reflexivity).
  rewrite Htc. cbn [negb].
  rewrite load_ok with (u := initialUser uid e n now)
    by (subst s1; apply lookup_insert_eq).
  cbn [initialUser referredBy truthy_opt].
  unfold bind at 1. unfold kv_get_referral.
  replace (referrals s1 !! toUpperCase code) with (Some uid)
    by (subst s1; cbn [referrals]; rewrite Hcode; symmetry;
        apply lookup_insert_eq).
  cbn [truthy_opt str_of]. rewrite Huid. cbn [negb].
  now rewrite String.eqb_refl.
Qed.

Lemma signup_own_code_refused_witness :
  let s1 := fst (signup "new@example.org" "secret" "New"
                   (CreatedUser "c0ffee00-new") 1000 empty_store) in
  applyReferral (Some "c0ffee00-new") "EcoC0ffee00" s1 = (s1, Err SelfReferral).
Proof.
  apply (signup_own_code_refused "new@example.org" "secret" "New"
           "c0ffee00-new" "EcoC0ffee00" 1000 empty_store); reflexivity.
Defined.

(** ** The waiting time before a first withdrawal *)

Lemma Math_ceil_bounds (x : Qc) :
  (num (Math_ceil x - 1) < x)%Qc /\ (x <= num (Math_ceil x))%Qc.
Proof. split; [apply Qceiling_lt|apply Qle_ceiling]. Qed.

(** [ceil(a / b)] is the least [d] with [a <= d * b]. *)
Lemma Math_ceil_div (a b : Z) :
  0 < b ->
  (Math_ceil (num a / num b)%Qc - 1) * b < a <= Math_ceil (num a / num b)%Qc * b.
Proof.
  intros Hb.
  assert (Hk : (0 < num b)%Qc) by now apply num_pos.
  assert (Hnz : num b <> 0%Qc) by now apply num_nonzero.
  destruct (Math_ceil_bounds (num a / num b)%Qc) as [Hlo Hhi].
  set (d := Math_ceil (num a / num b)%Qc) in *.
  apply (Qcmult_lt_mono_pos_r _ _ _ Hk) in Hlo.
  apply (Qcmult_le_mono_pos_r _ _ _ Hk) in Hhi.
  rewrite (Qcmult_comm (num a / _)), Qcmult_div_r in Hlo, Hhi by exact Hnz.
  unfold num in Hlo, Hhi.
  rewrite <- Z2Qc_inj_mul in Hlo, Hhi.
  apply Z2Qc_inj_lt in Hlo. apply Z2Qc_inj_le in Hhi. lia.
Qed.

Lemma requestWithdrawal_early (uid eco full : string) (u : User)
    (now : Z) (amount : Qc) (s : Store) :
  truthy uid = true -> users s !! uid = Some u ->
  amount <> 0%Qc -> truthy eco = true -> truthy full = true ->
  now < withdrawEligibleAt u ->
  requestWithdrawal (Some uid) now amount eco full s
  = (s, Err (NotYetEligible
               (Math_ceil (num (withdrawEligibleAt u - now)
                           / num (24 * 60 * 60 * 1000))%Qc))).
Proof.
  intros Hid Hu Hamount Heco Hfull Hearly.
  unfold requestWithdrawal. as_caller Hid.
  assert (Hz : Qeq_bool amount (num 0) = false).
  { destruct (Qeq_bool amount (num 0)) eqn:E; [|reflexivity].
    now apply Qeq_bool_num_0 in E. }
  rewrite Hz, Heco, Hfull. cbn [negb orb]. with_record u Hu.
  apply Z.ltb_lt in Hearly. now rewrite Hearly.
Qed.

(** Before [withdrawEligibleAt] a request with its fields present is
    answered with the number of days left, whatever the amount and the
    balance are, and nothing is written.  The number is the waiting time
    rounded up to whole days. *)
Theorem requestWithdrawal_days_left (uid eco full : string) (u : User)
    (now : Z) (amount : Qc) (s : Store)
    (Hid : truthy uid = true) (Hu : users s !! uid = Some u)
    (Hamount : amount <> 0%Qc) (Heco : truthy eco = true)
    (Hfull : truthy full = true) (Hearly : now < withdrawEligibleAt u) :
  exists daysLeft,
    requestWithdrawal (Some uid) now amount eco full s
    = (s, Err (NotYetEligible daysLeft))
    /\ (daysLeft - 1) * DAY_MS < withdrawEligibleAt u - now <= daysLeft * DAY_MS
    /\ 1 <= daysLeft.
Proof.
  rewrite (requestWithdrawal_early uid eco full u now amount s)
    by assumption.
  eexists. split; [reflexivity|].
  pose proof (Math_ceil_div (withdrawEligibleAt u - now) (24 * 60 * 60 * 1000)
                ltac:(lia)) as H.
  unfold DAY_MS. split; [exact H|]. nia.
Qed.

Lemma requestWithdrawal_days_left_witness :
  exists daysLeft,
    requestWithdrawal (Some "c0ffee00-new") 1000 (num 100) "0771234567" "New"
      fresh_store = (fresh_store, Err (NotYetEligible daysLeft))
    /\ (daysLeft - 1) * DAY_MS
       < withdrawEligibleAt fresh_user - 1000 <= daysLeft * DAY_MS
    /\ 1 <= daysLeft.
Proof.
  apply (requestWithdrawal_days_left "c0ffee00-new" "0771234567" "New"
           fresh_user 1000 (num 100) fresh_store); try reflexivity.
  literals_differ.
Defined.

(** An account created at [t0] cannot withdraw during its first seven days:
    a request at [now] with [t0 <= now < t0 + 7 days] is answered with
    between 1 and 7 days left, and with exactly 6 one day after signup. *)
Theorem signup_then_withdrawal_waits (e p n uid eco full : string)
    (t0 now : Z) (amount : Qc) (s : Store)
    (He : truthy e = true) (Hp : truthy p = true) (Hn : truthy n = true)
    (Huid : truthy uid = true) (Hamount : amount <> 0%Qc)
    (Heco : truthy eco = true) (Hfull : truthy full = true)
    (Hnow : t0 <= now < t0 + 7 * DAY_MS) :
  let s1 := fst (signup e p n (CreatedUser uid) t0 s) in
  exists daysLeft,
    requestWithdrawal (Some uid) now amount eco full s1
    = (s1, Err (NotYetEligible daysLeft))
    /\ 1 <= daysLeft <= 7
    /\ (now = t0 + DAY_MS -> daysLeft = 6).
Proof.
  cbv zeta. rewrite (signup_done e p n uid t0 s He Hp Hn). cbn [fst].
  set (s1 := mkStore _ _ _ _).
  assert (Hu1 : users s1 !! uid = Some (initialUser uid e n t0))
    by (subst s1; apply lookup_insert_eq).
  unfold DAY_MS in Hnow.
  rewrite (requestWithdrawal_early uid eco full (initialUser uid e n t0)
             now amount s1 Huid Hu1 Hamount Heco Hfull)
    by (cbn [initialUser withdrawEligibleAt]; lia).
  eexists. split; [reflexivity|].
  pose proof (Math_ceil_div
                (withdrawEligibleAt (initialUser uid e n t0) - now)
                (24 * 60 * 60 * 1000) ltac:(lia)) as Hd.
  cbn [initialUser withdrawEligibleAt] in Hd |- *. unfold DAY_MS.
  change (24 * 60 * 60 * 1000) with 86400000 in *.
  change (7 * 24 * 60 * 60 * 1000) with 604800000 in *.
  split; [lia|]. intros ->. lia.
Qed.

Lemma signup_then_withdrawal_waits_witness :
  let s1 := fst (signup "new@example.org" "secret" "New"
                   (CreatedUser "c0ffee00-new") 1000 empty_store) in
  exists daysLeft,
    requestWithdrawal (Some "c0ffee00-new") (1000 + DAY_MS) (num 100)
      "0771234567" "New" s1 = (s1, Err (NotYetEligible daysLeft))
    /\ 1 <= daysLeft <= 7
    /\ (1000 + DAY_MS = 1000 + DAY_MS -> daysLeft = 6).
Proof.
  apply (signup_then_withdrawal_waits "new@example.org" "secret" "New"
           "c0ffee00-new" "0771234567" "New" 1000 (1000 + DAY_MS) (num 100)
           empty_store); try reflexivity.
  - literals_differ.
  - unfold DAY_MS. lia.
Defined.

(** ** Mining status *)

Lemma miningStatus_run (uid : string) (u : User) (now : Z) (s : Store) :
  truthy uid = true -> users s !! uid = Some u ->
  miningStatus (Some uid) now s
  = (store_with_user uid (settle u now) s,
     Ok (mkMiningStatus (balance (settle u now))
           (currentMiningRate (settle u now))
           (adsWatchedToday (settle u now)) (depositBoostCap (settle u now))
           now (24 * 60 * 60 * 1000 - (now - lastResetTime (settle u now))))).
Proof.
  intros Hid Hu. unfold miningStatus. as_caller Hid. with_record u Hu.
  reflexivity.
Qed.

(** The time until the next reset that mining-status reports is always
    positive: when the window has run out the handler has just restarted it.
    It is at most 24 hours when [lastResetTime] does not lie after [now]. *)
Theorem miningStatus_time_until_reset (uid : string) (u : User) (now : Z)
    (s : Store)
    (Hid : truthy uid = true) (Hu : users s !! uid = Some u) :
  exists st,
    snd (miningStatus (Some uid) now s) = Ok st
    /\ 0 < ms_timeUntilReset st
    /\ (lastResetTime u <= now -> ms_timeUntilReset st <= DAY_MS)
    /\ (DAY_MS <= now - lastResetTime u -> ms_timeUntilReset st = DAY_MS).
Proof.
  rewrite (miningStatus_run uid u now s Hid Hu). cbn [snd].
  eexists. split; [reflexivity|]. cbn [ms_timeUntilReset].
  destruct (Z_le_gt_dec DAY_MS (now - lastResetTime u)) as [H|H].
  - destruct (settle_rollover u now H) as (_ & _ & ->).
    unfold DAY_MS in *. repeat split; intros; lia.
  - destruct (settle_same_window u now) as (_ & _ & ->); [lia|].
    unfold DAY_MS in *. repeat split; intros; lia.
Qed.

Lemma miningStatus_time_until_reset_witness :
  exists st,
    snd (miningStatus (Some "u-cap") 90000000 capped_store) = Ok st
    /\ 0 < ms_timeUntilReset st
    /\ (lastResetTime capped_user <= 90000000 -> ms_timeUntilReset st <= DAY_MS)
    /\ (DAY_MS <= 90000000 - lastResetTime capped_user
        -> ms_timeUntilReset st = DAY_MS).
Proof.
  apply (miningStatus_time_until_reset "u-cap" capped_user 90000000
           capped_store); reflexivity.
Defined.

Lemma store_with_user_twice (id : string) (u v : User) (s : Store) :
  store_with_user id v (store_with_user id u s) = store_with_user id v s.
Proof. unfold store_with_user. cbn [users referrals bonuses withdrawals].
  now rewrite insert_insert_eq. Qed.

(** Polling mining-status again at the same server time changes nothing:
    the second call leaves the store as the first left it and gives the same
    answer, for every caller. *)
Theorem miningStatus_repeat (caller : option string) (now : Z) (s : Store) :
  miningStatus caller now (fst (miningStatus caller now s))
  = miningStatus caller now s.
Proof.
  destruct (truthy_opt caller) eqn:Hc.
  - destruct caller as [uid|]; [cbn in Hc|discriminate].
    destruct (users s !! uid) as [u|] eqn:Hu.
    + rewrite (miningStatus_run uid u now s Hc Hu). cbn [fst].
      rewrite (miningStatus_run uid (settle u now) now _ Hc)
        by apply lookup_insert_eq.
      rewrite store_with_user_twice.
      unfold settle at 1 3 5 7 9 11.
      rewrite !accrue_settled by apply settle_miningStartTime.
      unfold settle. rewrite !dailyReset_idempotent. reflexivity.
    + assert (E : miningStatus (Some uid) now s = (s, Err UserNotFound))
        by (unfold miningStatus; as_caller Hc;
            now rewrite load_missing by exact Hu).
      rewrite E. exact E.
  - assert (E : miningStatus caller now s = (s, Err Unauthorized))
      by (unfold miningStatus; now rewrite auth_rejected by exact Hc).
    rewrite E. exact E.
Qed.

(** ** Sums of integers as numbers *)

Lemma num_add (a b : Z) : (num a + num b)%Qc = num (a + b).
Proof. unfold num. now rewrite Z2Qc_inj_add. Qed.

(** ** What each handler can do to the store *)

(** Apply-referral either answers with an error and writes nothing, or
    links the caller to the owner of the code, with or without the
    bonuses. *)
Lemma applyReferral_cases (caller : option string) (code : string) (s : Store) :
  (exists e, applyReferral caller code s = (s, Err e))
  \/ exists (uid rid : string) (u r : User),
       caller = Some uid /\ truthy uid = true
       /\ users s !! uid = Some u /\ truthy_opt (referredBy u) = false
       /\ truthy code = true
       /\ referrals s !! toUpperCase code = Some rid /\ truthy rid = true
       /\ rid <> uid /\ users s !! rid = Some r
       /\ ((REFERRAL_AD_THRESHOLD <= adsWatchedToday u
            /\ applyReferral caller code s
               = (store_with_user uid (linked_referee rid u)
                    (store_with_user rid (rewarded_referrer r) s), Ok tt))
           \/ (adsWatchedToday u < REFERRAL_AD_THRESHOLD
               /\ applyReferral caller code s
                  = (store_with_user uid (set_referredBy (Some rid) u) s,
                     Ok tt))).
Proof.
  destruct (truthy_opt caller) eqn:Hc.
  2:{ left. eexists. unfold applyReferral. now rewrite auth_rejected. }
  destruct caller as [uid|]; [cbn in Hc|discriminate].
  destruct (truthy code) eqn:Hcode.
  2:{ left. eexists. unfold applyReferral. as_caller Hc. now rewrite Hcode. }
  destruct (users s !! uid) as [u|] eqn:Hu.
  2:{ left. eexists. unfold applyReferral. as_caller Hc. rewrite Hcode.
      cbn [negb]. now rewrite load_missing. }
  destruct (truthy_opt (referredBy u)) eqn:Hfree.
  { left. eexists. unfold applyReferral. as_caller Hc. rewrite Hcode.
    cbn [negb]. with_record u Hu. now rewrite Hfree. }
  destruct (referrals s !! toUpperCase code) as [rid|] eqn:Hidx.
  2:{ left. eexists. unfold applyReferral. as_caller Hc. rewrite Hcode.
      cbn [negb]. with_record u Hu. rewrite Hfree.
      unfold bind at 1. unfold kv_get_referral. now rewrite Hidx. }
  destruct (truthy rid) eqn:Hrid.
  2:{ left. eexists. unfold applyReferral. as_caller Hc. rewrite Hcode.
      cbn [negb]. with_record u Hu. rewrite Hfree.
      unfold bind at 1. unfold kv_get_referral. rewrite Hidx.
      cbn [truthy_opt]. now rewrite Hrid. }
  destruct (String.eqb rid uid) eqn:Heq.
  { left. eexists. unfold applyReferral. as_caller Hc. rewrite Hcode.
    cbn [negb]. with_record u Hu. rewrite Hfree.
    unfold bind at 1. unfold kv_get_referral. rewrite Hidx.
    cbn [truthy_opt str_of]. rewrite Hrid. cbn [negb]. now rewrite Heq. }
  apply String.eqb_neq in Heq.
  destruct (users s !! rid) as [r|] eqn:Hr.
  2:{ left. eexists. unfold applyReferral. as_caller Hc. rewrite Hcode.
      cbn [negb]. with_record u Hu. rewrite Hfree.
      unfold bind at 1. unfold kv_get_referral. rewrite Hidx.
      cbn [truthy_opt str_of]. rewrite Hrid. cbn [negb].
      rewrite (eqb_ne _ _ Heq).
      unfold bind at 1. unfold kv_get_user. now rewrite Hr. }
  right. exists uid, rid, u, r.
  do 9 (split; [solve [reflexivity | assumption]|]).
  destruct (Z_le_gt_dec REFERRAL_AD_THRESHOLD (adsWatchedToday u)) as [H|H].
  - left. split; [exact H|].
    now apply applyReferral_with_bonus with (r := r).
  - right. split; [lia|].
    apply applyReferral_without_bonus with (r := r); try assumption. lia.
Qed.

(** Check-referral-bonus for a stored caller: it pays when the bonus is
    due, and otherwise answers [false] and writes nothing. *)
Lemma checkReferralBonus_known (uid : string) (u : User) (s : Store) :
  truthy uid = true -> users s !! uid = Some u ->
  (bonus_due uid u s
   /\ exists r, users s !! str_of (referredBy u) = Some r
        /\ checkReferralBonus (Some uid) s
           = (store_with_bonus (str_of (referredBy u)) uid r s, Ok true))
  \/ (~ bonus_due uid u s /\ checkReferralBonus (Some uid) s = (s, Ok false)).
Proof.
  intros Hid Hu. unfold bonus_due.
  destruct (truthy_opt (referredBy u)) eqn:Href.
  2:{ right. split; [intros (H & _); discriminate|].
      unfold checkReferralBonus. as_caller Hid. with_record u Hu.
      now rewrite Href. }
  destruct (REFERRAL_AD_THRESHOLD <=? adsWatchedToday u) eqn:Hads.
  2:{ right. split; [intros (_ & H & _); apply Z.leb_le in H; congruence|].
      unfold checkReferralBonus. as_caller Hid. with_record u Hu.
      now rewrite Href, Hads. }
  destruct (users s !! str_of (referredBy u)) as [r|] eqn:Hr.
  2:{ right. split; [intros (_ & _ & [r H] & _); discriminate|].
      unfold checkReferralBonus. as_caller Hid. with_record u Hu.
      rewrite Href, Hads. cbn [andb].
      unfold bind at 1. unfold kv_get_user. now rewrite Hr. }
  destruct (truthy_flag (bonuses s !! bonusKey (str_of (referredBy u)) uid))
    eqn:Hmark.
  { right. split; [intros (_ & _ & _ & H & _); discriminate|].
    unfold checkReferralBonus. as_caller Hid. with_record u Hu.
    rewrite Href, Hads. cbn [andb].
    unfold bind at 1. unfold kv_get_user. rewrite Hr.
    unfold bind at 1. unfold kv_get_bonus. now rewrite Hmark. }
  destruct (Qcltb (num 0) (totalMined u)) eqn:Hmined.
  - left. split.
    + split; [reflexivity|]. split; [now apply Z.leb_le|].
      split; [now exists r|]. split; [reflexivity|].
      apply Qcltb_lt in Hmined. now rewrite num_0 in Hmined.
    + exists r. split; [reflexivity|].
      unfold checkReferralBonus. as_caller Hid. with_record u Hu.
      rewrite Href, Hads. cbn [andb].
      unfold bind at 1. unfold kv_get_user. rewrite Hr.
      unfold bind at 1. unfold kv_get_bonus. now rewrite Hmark, Hmined.
  - right. split.
    + intros (_ & _ & _ & _ & H). apply Qcltb_0_pos in H. congruence.
    + unfold checkReferralBonus. as_caller Hid. with_record u Hu.
      rewrite Href, Hads. cbn [andb].
      unfold bind at 1. unfold kv_get_user. rewrite Hr.
      unfold bind at 1. unfold kv_get_bonus. now rewrite Hmark, Hmined.
Qed.

Lemma checkReferralBonus_cases (caller : option string) (s : Store) :
  fst (checkReferralBonus caller s) = s
  \/ exists (uid rid : string) (r : User),
       users s !! rid = Some r
       /\ fst (checkReferralBonus caller s) = store_with_bonus rid uid r s.
Proof.
  destruct (truthy_opt caller) eqn:Hc.
  2:{ left. unfold checkReferralBonus. now rewrite auth_rejected. }
  destruct caller as [uid|]; [cbn in Hc|discriminate].
  destruct (users s !! uid) as [u|] eqn:Hu.
  2:{ left. unfold checkReferralBonus. as_caller Hc. now rewrite load_missing. }
  destruct (checkReferralBonus_known uid u s Hc Hu)
    as [(_ & r & Hr & ->)|(_ & ->)]; [right|now left].
  now exists uid, (str_of (referredBy u)), r.
Qed.

Lemma depositBoost_cases (caller : option string) (amount : Qc) (s : Store) :
  (exists e, depositBoost caller amount s = (s, Err e))
  \/ exists (uid : string) (u : User),
       caller = Some uid /\ users s !! uid = Some u
       /\ (MINIMUM_DEPOSIT <= amount)%Qc
       /\ depositBoost caller amount s
          = (store_with_user uid
               (set_depositBoostCap
                  (depositBoostCap u + Math_floor (amount / num 2)%Qc * 50) u) s,
             Ok (depositBoostCap u + Math_floor (amount / num 2)%Qc * 50)).
Proof.
  destruct (truthy_opt caller) eqn:Hc.
  2:{ left. eexists. unfold depositBoost. now rewrite auth_rejected. }
  destruct caller as [uid|]; [cbn in Hc|discriminate].
  unfold depositBoost. as_caller Hc.
  destruct (Qeq_bool amount (num 0)) eqn:Hz; [left; eexists; reflexivity|].
  destruct (Qcltb amount MINIMUM_DEPOSIT) eqn:Hmin;
    [left; eexists; reflexivity|].
  cbn [orb].
  destruct (users s !! uid) as [u|] eqn:Hu.
  - right. exists uid, u. with_record u Hu.
    apply Qcltb_ge in Hmin. repeat split; assumption.
  - left. eexists. now rewrite load_missing.
Qed.

Lemma requestWithdrawal_cases (caller : option string) (now : Z) (amount : Qc)
    (eco full : string) (s : Store) :
  fst (requestWithdrawal caller now amount eco full s) = s
  \/ exists (uid : string) (u : User),
       users s !! uid = Some u
       /\ withdrawal_accepted u now amount eco full
       /\ fst (requestWithdrawal caller now amount eco full s)
          = store_after_withdrawal uid u now amount eco full s.
Proof.
  destruct (requestWithdrawal caller now amount eco full s) as [s' [rc|e]] eqn:E.
  - right.
    destruct (truthy_opt caller) eqn:Hc.
    + destruct caller as [uid|]; [cbn in Hc|discriminate].
      destruct (users s !! uid) as [u|] eqn:Hu.
      * destruct (withdrawal_accepted_dec u now amount eco full) as [Hok|Hno].
        -- rewrite (requestWithdrawal_accepted uid u now amount eco full s
                      Hc Hu Hok) in E. injection E as <- _.
           now exists uid, u.
        -- destruct (requestWithdrawal_refused uid u now amount eco full s
                       Hc Hu Hno) as [e He]. congruence.
      * unfold requestWithdrawal in E. rewrite auth_ok in E by exact Hc.
        destruct (_ || _ || _)%bool; [discriminate|].
        rewrite load_missing in E by exact Hu. discriminate.
    + unfold requestWithdrawal in E.
      rewrite auth_rejected in E by exact Hc. discriminate.
  - left. pose proof (requestWithdrawal_error_no_write caller now amount eco
                        full s e) as H.
    rewrite E in H. now apply H.
Qed.

Lemma watchAd_cases (caller : option string) (now : Z) (s : Store) :
  (exists e, watchAd caller now s = (s, Err e))
  \/ exists (uid : string) (u : User),
       caller = Some uid /\ users s !! uid = Some u
       /\ adsWatchedToday (settle u now) < depositBoostCap u
       /\ fst (watchAd caller now s) = store_with_user uid (boosted u now) s.
Proof.
  destruct (truthy_opt caller) eqn:Hc.
  2:{ left. eexists. unfold watchAd. now rewrite auth_rejected. }
  destruct caller as [uid|]; [cbn in Hc|discriminate].
  destruct (users s !! uid) as [u|] eqn:Hu.
  2:{ left. eexists. unfold watchAd. as_caller Hc. now rewrite load_missing. }
  rewrite (watchAd_run uid u now s Hc Hu).
  destruct (Z.leb_spec (depositBoostCap u) (adsWatchedToday (settle u now))).
  - left. now eexists.
  - right. now exists uid, u.
Qed.

Lemma miningStatus_cases (caller : option string) (now : Z) (s : Store) :
  (exists e, miningStatus caller now s = (s, Err e))
  \/ exists (uid : string) (u : User),
       caller = Some uid /\ users s !! uid = Some u
       /\ fst (miningStatus caller now s) = store_with_user uid (settle u now) s.
Proof.
  destruct (truthy_opt caller) eqn:Hc.
  2:{ left. eexists. unfold miningStatus. now rewrite auth_rejected. }
  destruct caller as [uid|]; [cbn in Hc|discriminate].
  destruct (users s !! uid) as [u|] eqn:Hu.
  2:{ left. eexists. unfold miningStatus. as_caller Hc.
      now rewrite load_missing. }
  right. exists uid, u. now rewrite (miningStatus_run uid u now s Hc Hu).
Qed.

Lemma processWithdrawal_users (caller : option string) (key : string) (now : Z)
    (s : Store) :
  users (fst (processWithdrawal caller key now s)) = users s.
Proof.
  unfold processWithdrawal.
  destruct (negb (truthy_opt caller)); [reflexivity|].
  destruct (negb (isAdmin _)); [reflexivity|].
  now destruct (withdrawals s !! key).
Qed.

(** ** The ledger stays in order *)

Lemma num_nonneg (z : Z) : 0 <= z -> (0 <= num z)%Qc.
Proof.
  intros H. rewrite <- num_0. unfold num.
  exact (proj1 (Z2Qc_inj_le 0 z) H).
Qed.

Lemma lit_nonneg (n : Z) (d : positive) : 0 <= n -> (0 <= lit n d)%Qc.
Proof.
  intros H. unfold lit, Qcle. cbn [this Q2Qc].
  apply (Qle_trans _ (n # d)).
  - change (0 # 1 <= n # d)%Q. unfold Qle. cbn [Qnum Qden]. lia.
  - apply Qle_lteq. right. symmetry. apply Qred_correct.
Qed.

Lemma Qcle_plus_nonneg (a b c : Qc) :
  (a <= b)%Qc -> (0 <= c)%Qc -> (a <= b + c)%Qc.
Proof.
  intros Hab Hc. rewrite <- (Qcplus_0_r a). now apply Qcplus_le_compat.
Qed.

Lemma earnings_nonneg (rate : Qc) (d : Z) :
  (0 <= rate)%Qc -> 0 <= d -> (0 <= rate * (num d / num 1000))%Qc.
Proof.
  intros Hr Hd. apply Qcmult_nonneg_nonneg; [exact Hr|].
  unfold Qcdiv. apply Qcmult_nonneg_nonneg; [now apply num_nonneg|].
  apply Qclt_le_weak, Qcinv_pos, num_pos. lia.
Qed.

Lemma user_ok_later (T T' : Z) (u : User) :
  T <= T' -> user_ok T u -> user_ok T' u.
Proof. unfold user_ok. intuition lia. Qed.

Lemma user_ok_settle (T now : Z) (u : User) :
  T <= now -> user_ok T u -> user_ok now (settle u now).
Proof.
  intros HT (Hb & Ht & Hbase & Hrate & Hads & Hstart).
  assert (Hr : (0 <= currentMiningRate u)%Qc) by now apply Qcle_trans with (baseMiningRate u).
  assert (He : (0 <= currentMiningRate u * (num (now - miningStartTime u) / num 1000))%Qc)
    by (apply earnings_nonneg; [exact Hr|lia]).
  unfold user_ok, settle.
  destruct (dailyReset_frame (accrue u now) now) as (-> & -> & -> & -> & ->).
  cbn [accrue balance totalMined miningStartTime depositBoostCap baseMiningRate
       set_balance set_totalMined set_miningStartTime].
  split; [now apply Qcplus_nonneg_nonneg|].
  split; [now apply Qcplus_nonneg_nonneg|].
  split; [exact Hbase|].
  unfold dailyReset. destruct (Qcleb _ _);
    cbn [currentMiningRate adsWatchedToday set_lastResetTime
         set_adsWatchedToday set_currentMiningRate accrue set_balance
         set_totalMined set_miningStartTime baseMiningRate].
  - split; [apply Qcle_refl|lia].
  - split; [exact Hrate|lia].
Qed.

Lemma user_ok_boosted (now : Z) (u : User) :
  user_ok now (settle u now) ->
  adsWatchedToday (settle u now) < depositBoostCap u ->
  user_ok now (boosted u now).
Proof.
  intros (Hb & Ht & Hbase & Hrate & Hads & Hstart) Hroom.
  rewrite settle_depositBoostCap in Hads.
  unfold user_ok, boosted.
  cbn [balance totalMined baseMiningRate currentMiningRate adsWatchedToday
       depositBoostCap miningStartTime set_lastAdWatchTime set_adsWatchedToday
       set_currentMiningRate].
  rewrite settle_depositBoostCap.
  repeat (split; try assumption); try lia.
  apply Qcle_plus_nonneg; [exact Hrate|]. apply lit_nonneg. lia.
Qed.

Lemma ledger_ok_later (T T' : Z) (s : Store) :
  T <= T' -> ledger_ok T s -> ledger_ok T' s.
Proof. intros HT H id u Hu. eapply user_ok_later; eauto. Qed.

Lemma ledger_ok_same_users (T : Z) (s s' : Store) :
  users s' = users s -> ledger_ok T s -> ledger_ok T s'.
Proof. intros E H id u Hu. rewrite E in Hu. eauto. Qed.

Lemma ledger_ok_insert (T : Z) (s s' : Store) (id : string) (u : User) :
  users s' = <[id := u]> (users s) ->
  user_ok T u -> ledger_ok T s -> ledger_ok T s'.
Proof.
  intros E Hu H id' u' Hu'. rewrite E in Hu'.
  destruct (decide (id = id')) as [->|Hne].
  - rewrite lookup_insert_eq in Hu'. now injection Hu' as <-.
  - rewrite lookup_insert_ne in Hu' by exact Hne. eauto.
Qed.

Lemma floor_half_nonneg (amount : Qc) :
  (MINIMUM_DEPOSIT <= amount)%Qc -> 1 <= Math_floor (amount / num 2)%Qc.
Proof.
  intros H. unfold Math_floor.
  assert (H2 : (0 < num 2)%Qc) by (apply num_pos; lia).
  assert (Hle : (num 1 <= amount / num 2)%Qc).
  { apply (Qcmult_le_mono_pos_r _ _ _ H2).
    rewrite (Qcmult_comm (amount / _)), Qcmult_div_r
      by (apply num_nonzero; lia).
    unfold num at 1 2. rewrite <- Z2Qc_inj_mul. exact H. }
  change 1 with (Qfloor (inject_Z 1)). apply Qfloor_resp_le. exact Hle.
Qed.

(** One request keeps the ledger in order, the clock not going back. *)
Lemma serve_keeps_ledger_ok (r : Request) (T : Z) (s : Store) :
  ledger_ok T s ->
  (forall now, served_at r = Some now -> T <= now) ->
  ledger_ok (clock_after T r) (serve r s).
Proof.
  intros Hs Hclock.
  destruct r as [e p n c now|c now|c now|c code|c|c a|c now a e f|c k now];
    unfold clock_after; cbn [served_at serve];
    try (assert (HT : T <= now) by (apply Hclock; reflexivity)).
  - (* signup *)
    apply ledger_ok_later with (T' := now) in Hs; [|exact HT].
    unfold signup. destruct (_ || _ || _)%bool; [exact Hs|].
    destruct c as [m|uid]; [exact Hs|].
    eapply ledger_ok_insert; [reflexivity| |exact Hs].
    unfold user_ok, initialUser.
    cbn [balance totalMined baseMiningRate currentMiningRate adsWatchedToday
         depositBoostCap miningStartTime].
    repeat split; try lia; try apply Qcle_refl;
      try (apply num_nonneg; lia); apply lit_nonneg; lia.
  - (* mining-status *)
    destruct (miningStatus_cases c now s) as [[e ->]|(uid & u & _ & Hu & ->)].
    + now apply ledger_ok_later with (T := T).
    + eapply ledger_ok_insert; [reflexivity| |].
      * apply user_ok_settle with (T := T); [exact HT|]. now apply (Hs uid).
      * now apply ledger_ok_later with (T := T).
  - (* watch-ad *)
    destruct (watchAd_cases c now s) as [[e ->]|(uid & u & _ & Hu & Hroom & ->)].
    + now apply ledger_ok_later with (T := T).
    + eapply ledger_ok_insert; [reflexivity| |].
      * apply user_ok_boosted; [|exact Hroom].
        apply user_ok_settle with (T := T); [exact HT|]. now apply (Hs uid).
      * now apply ledger_ok_later with (T := T).
  - (* apply-referral *)
    destruct (applyReferral_cases c code s)
      as [[e ->]|(uid & rid & u & r & _ & _ & Hu & _ & _ & _ & _ & _ & Hr
                  & [(_ & ->)|(_ & ->)])]; [exact Hs| |].
    + destruct (Hs uid u Hu) as (Hb & Ht & Hbase & Hrate & Hads & Hstart).
      destruct (Hs rid r Hr) as (Hb' & Ht' & Hbase' & Hrate' & Hads' & Hstart').
      eapply ledger_ok_insert; [reflexivity| |].
      * unfold user_ok, linked_referee.
        cbn [balance totalMined baseMiningRate currentMiningRate
             adsWatchedToday depositBoostCap miningStartTime
             set_currentMiningRate set_referredBy].
        repeat (split; try assumption); try lia.
        apply Qcle_plus_nonneg; [exact Hrate|]. apply lit_nonneg. lia.
      * eapply ledger_ok_insert; [reflexivity| |exact Hs].
        unfold user_ok, rewarded_referrer.
        cbn [balance totalMined baseMiningRate currentMiningRate
             adsWatchedToday depositBoostCap miningStartTime
             set_currentMiningRate set_referralCount].
        repeat (split; try assumption); try lia.
        apply Qcle_plus_nonneg; [exact Hrate'|]. apply lit_nonneg. lia.
    + eapply ledger_ok_insert; [reflexivity| |exact Hs].
      destruct (Hs uid u Hu) as (Hb & Ht & Hbase & Hrate & Hads & Hstart).
      unfold user_ok. cbn [balance totalMined baseMiningRate currentMiningRate
        adsWatchedToday depositBoostCap miningStartTime set_referredBy].
      repeat (split; try assumption); lia.
  - (* check-referral-bonus *)
    destruct (checkReferralBonus_cases c s) as [->|(uid & rid & r & Hr & ->)];
      [exact Hs|].
    eapply ledger_ok_insert; [reflexivity| |exact Hs].
    destruct (Hs rid r Hr) as (Hb & Ht & Hbase & Hrate & Hads & Hstart).
    unfold user_ok, credited_referrer.
    cbn [balance totalMined baseMiningRate currentMiningRate adsWatchedToday
         depositBoostCap miningStartTime set_balance].
    repeat (split; try assumption); try lia.
    apply Qcplus_nonneg_nonneg; [exact Hb|]. apply lit_nonneg. lia.
  - (* deposit-boost *)
    destruct (depositBoost_cases c a s)
      as [[e ->]|(uid & u & _ & Hu & Hmin & ->)]; [exact Hs|].
    eapply ledger_ok_insert; [reflexivity| |exact Hs].
    destruct (Hs uid u Hu) as (Hb & Ht & Hbase & Hrate & Hads & Hstart).
    pose proof (floor_half_nonneg a Hmin) as Hfloor.
    unfold user_ok. cbn [balance totalMined baseMiningRate currentMiningRate
      adsWatchedToday depositBoostCap miningStartTime set_depositBoostCap].
    repeat (split; try assumption); lia.
  - (* request-withdrawal *)
    apply ledger_ok_later with (T' := now) in Hs; [|exact HT].
    destruct (requestWithdrawal_cases c now a e f s)
      as [->|(uid & u & Hu & Hok & ->)]; [exact Hs|].
    eapply ledger_ok_insert; [reflexivity| |exact Hs].
    destruct (Hs uid u Hu) as (Hb & Ht & Hbase & Hrate & Hads & Hstart).
    destruct Hok as (_ & _ & _ & _ & _ & Hbal).
    unfold user_ok. cbn [balance totalMined baseMiningRate currentMiningRate
      adsWatchedToday depositBoostCap miningStartTime set_balance].
    repeat (split; try assumption); try lia.
    unfold Qcminus. now apply Qcle_minus_iff in Hbal.
  - (* process-withdrawal *)
    apply ledger_ok_later with (T' := now) in Hs; [|exact HT].
    eapply ledger_ok_same_users; [apply processWithdrawal_users|exact Hs].
Qed.

(** Starting from a store in order, serving any sequence of requests whose
    server times never go back leaves a store in order: no balance or
    [totalMined] is negative, no rate is below its base rate, no ad counter
    is outside [0, depositBoostCap], and no record is settled later than the
    clock. *)
Theorem serve_all_keeps_ledger_ok (rs : list Request) (T : Z) (s : Store) :
  ledger_ok T s -> clock_ordered T rs ->
  ledger_ok (serve_all rs T s).1 (serve_all rs T s).2.
Proof.
  revert T s. induction rs as [|r rest IH]; intros T s Hs Hord.
  - exact Hs.
  - destruct Hord as [Hnow Hrest]. cbn [serve_all]. apply IH; [|exact Hrest].
    apply serve_keeps_ledger_ok; [exact Hs|].
    intros now E. now rewrite E in Hnow.
Qed.

Lemma ledger_ok_empty (T : Z) : ledger_ok T empty_store.
Proof. intros id u H. cbn in H. now rewrite lookup_empty in H. Qed.

Lemma serve_all_keeps_ledger_ok_witness :
  ledger_ok (serve_all sample_session 0 empty_store).1
    (serve_all sample_session 0 empty_store).2.
Proof.
  apply (serve_all_keeps_ledger_ok sample_session 0 empty_store).
  - apply ledger_ok_empty.
  - cbn. lia.
Defined.

(** ** Referral linkage, continued *)

(** An apply-referral call that ends in an error has written nothing. *)
Theorem applyReferral_error_no_write (caller : option string) (code : string)
    (s : Store) (e : Error) :
  snd (applyReferral caller code s) = Err e ->
  fst (applyReferral caller code s) = s.
Proof.
  destruct (applyReferral_cases caller code s)
    as [[e' ->]|(uid & rid & u & r & _ & _ & _ & _ & _ & _ & _ & _ & _
                 & [(_ & ->)|(_ & ->)])];
    [reflexivity|discriminate|discriminate].
Qed.

Lemma applyReferral_error_no_write_witness :
  snd (applyReferral (Some "5b1c2d3e-ref") "ECO00000000" referral_store)
    = Err InvalidCode
  /\ fst (applyReferral (Some "5b1c2d3e-ref") "ECO00000000" referral_store)
     = referral_store.
Proof.
  assert (H : snd (applyReferral (Some "5b1c2d3e-ref") "ECO00000000"
                     referral_store) = Err InvalidCode) by reflexivity.
  split; [exact H|].
  exact (applyReferral_error_no_write (Some "5b1c2d3e-ref") "ECO00000000"
           referral_store InvalidCode H).
Defined.

Lemma applyReferral_closed (uid code : string) (u : User) (s : Store) :
  truthy uid = true -> users s !! uid = Some u ->
  truthy_opt (referredBy u) = true -> truthy code = true ->
  applyReferral (Some uid) code s = (s, Err AlreadyReferred).
Proof.
  intros Hid Hu Hset Hcode. unfold applyReferral. as_caller Hid.
  rewrite Hcode. cbn [negb]. with_record u Hu. now rewrite Hset.
Qed.

(** A successful apply-referral call links the caller to the owner of the
    code, who is another user, and closes the door behind it: every later
    call of the same caller that supplies a code is refused. *)
Theorem applyReferral_links_once (caller : option string) (code : string)
    (s s' : Store) :
  applyReferral caller code s = (s', Ok tt) ->
  exists (uid rid : string) (u' : User),
    caller = Some uid
    /\ referrals s !! toUpperCase code = Some rid /\ rid <> uid
    /\ is_Some (users s !! rid)
    /\ users s' !! uid = Some u' /\ referredBy u' = Some rid
    /\ forall code2, truthy code2 = true ->
         applyReferral caller code2 s' = (s', Err AlreadyReferred).
Proof.
  intros Hrun.
  destruct (applyReferral_cases caller code s)
    as [[e He]|(uid & rid & u & r & -> & Hid & Hu & _ & _ & Hidx & Hrid & Hne
                & Hr & [(_ & E)|(_ & E)])];
    [congruence| |];
    rewrite E in Hrun; injection Hrun as <-.
  - exists uid, rid, (linked_referee rid u).
    split; [reflexivity|]. split; [exact Hidx|]. split; [exact Hne|].
    split; [now exists r|]. split; [apply lookup_insert_eq|].
    split; [reflexivity|]. intros code2 Hc2.
    apply applyReferral_closed with (u := linked_referee rid u);
      try assumption; apply lookup_insert_eq.
  - exists uid, rid, (set_referredBy (Some rid) u).
    split; [reflexivity|]. split; [exact Hidx|]. split; [exact Hne|].
    split; [now exists r|]. split; [apply lookup_insert_eq|].
    split; [reflexivity|]. intros code2 Hc2.
    apply applyReferral_closed with (u := set_referredBy (Some rid) u);
      try assumption; apply lookup_insert_eq.
Qed.

Lemma applyReferral_links_once_witness :
  exists (uid rid : string) (u' : User),
    Some "5b1c2d3e-ref" = Some uid
    /\ referrals referral_store !! toUpperCase "eco9f8e7d6c" = Some rid
    /\ rid <> uid
    /\ is_Some (users referral_store !! rid)
    /\ users (fst (applyReferral (Some "5b1c2d3e-ref") "eco9f8e7d6c"
                     referral_store)) !! uid = Some u'
    /\ referredBy u' = Some rid
    /\ forall code2, truthy code2 = true ->
         applyReferral (Some "5b1c2d3e-ref") code2
           (fst (applyReferral (Some "5b1c2d3e-ref") "eco9f8e7d6c"
                   referral_store))
         = (fst (applyReferral (Some "5b1c2d3e-ref") "eco9f8e7d6c"
                   referral_store), Err AlreadyReferred).
Proof.
  apply (applyReferral_links_once (Some "5b1c2d3e-ref") "eco9f8e7d6c"
           referral_store).
  reflexivity.
Defined.

(** ** The referrer credit, continued *)

(** For a stored caller check-referral-bonus always answers; it answers
    [true] exactly when the caller has a referrer whose record exists, has
    three ads or more counted in the current window, has mined something, and
    the marker of the pair is not set; and when it answers [false] it has
    written nothing. *)
Theorem checkReferralBonus_pays_iff (uid : string) (u : User) (s : Store)
    (Hid : truthy uid = true) (Hu : users s !! uid = Some u) :
  (exists granted, snd (checkReferralBonus (Some uid) s) = Ok granted)
  /\ (snd (checkReferralBonus (Some uid) s) = Ok true <-> bonus_due uid u s)
  /\ (snd (checkReferralBonus (Some uid) s) = Ok false ->
      fst (checkReferralBonus (Some uid) s) = s).
Proof.
  destruct (checkReferralBonus_known uid u s Hid Hu)
    as [(Hdue & r & _ & ->)|(Hno & ->)]; cbn [fst snd].
  - split; [now exists true|]. split; [tauto|discriminate].
  - split; [now exists false|]. split; [|reflexivity].
    split; [discriminate|contradiction].
Qed.

Lemma checkReferralBonus_pays_iff_witness :
  (exists granted,
     snd (checkReferralBonus (Some "5b1c2d3e-ref") linked_store) = Ok granted)
  /\ (snd (checkReferralBonus (Some "5b1c2d3e-ref") linked_store) = Ok true
      <-> bonus_due "5b1c2d3e-ref"
            (linked_referee "9f8e7d6c-host" referee_user) linked_store)
  /\ (snd (checkReferralBonus (Some "5b1c2d3e-ref") linked_store) = Ok false ->
      fst (checkReferralBonus (Some "5b1c2d3e-ref") linked_store) = linked_store).
Proof.
  apply (checkReferralBonus_pays_iff "5b1c2d3e-ref"
           (linked_referee "9f8e7d6c-host" referee_user) linked_store).
  - reflexivity.
  - apply lookup_insert_eq.
Defined.

(** ** What no request changes *)

Lemma evolves_refl (u : User) : evolves u u.
Proof. unfold evolves. repeat split; try reflexivity; try lia. Qed.

Lemma evolves_trans (u v w : User) : evolves u v -> evolves v w -> evolves u w.
Proof.
  unfold evolves.
  intros (A1 & A2 & A3 & A4 & A5 & A6 & A7 & A8 & A9 & A10 & A11)
         (B1 & B2 & B3 & B4 & B5 & B6 & B7 & B8 & B9 & B10 & B11).
  repeat split; try congruence; try lia.
  intros H. rewrite <- (A11 H). apply B11. now rewrite (A11 H).
Qed.

Lemma evolves_settle (u : User) (now : Z) : evolves u (settle u now).
Proof.
  unfold evolves, settle, dailyReset, accrue.
  destruct (Qcleb _ _); cbn; repeat split; try reflexivity; lia.
Qed.

Lemma evolves_boosted (u : User) (now : Z) : evolves u (boosted u now).
Proof.
  apply evolves_trans with (settle u now); [apply evolves_settle|].
  unfold evolves, boosted. cbn. repeat split; try reflexivity; lia.
Qed.

Lemma evolves_insert (s s' : Store) (k : string) (w v : User) :
  users s' = <[k := v]> (users s) -> users s !! k = Some w -> evolves w v ->
  forall (id : string) (u : User), users s !! id = Some u ->
    exists u', users s' !! id = Some u' /\ evolves u u'.
Proof.
  intros E Hw Hev id u Hu. rewrite E.
  destruct (decide (k = id)) as [->|Hne].
  - rewrite lookup_insert_eq. exists v. split; [reflexivity|]. congruence.
  - rewrite lookup_insert_ne by exact Hne. exists u.
    split; [exact Hu|apply evolves_refl].
Qed.

Lemma serve_evolves (r : Request) (s : Store) :
  no_signup [r] ->
  forall (id : string) (u : User), users s !! id = Some u ->
    exists u', users (serve r s) !! id = Some u' /\ evolves u u'.
Proof.
  intros Hr id u0 Hu0.
  assert (Hsame : exists u', users s !! id = Some u' /\ evolves u0 u')
    by (exists u0; split; [exact Hu0|apply evolves_refl]).
  destruct r as [e p n c now|c now|c now|c code|c|c a|c now a e f|c k now];
    cbn [serve]; [destruct Hr| | | | | | |].
  - destruct (miningStatus_cases c now s) as [[e ->]|(uid & u & _ & Hu & ->)];
      [exact Hsame|].
    eapply evolves_insert; [reflexivity|exact Hu|apply evolves_settle|exact Hu0].
  - destruct (watchAd_cases c now s) as [[e ->]|(uid & u & _ & Hu & _ & ->)];
      [exact Hsame|].
    eapply evolves_insert; [reflexivity|exact Hu|apply evolves_boosted|exact Hu0].
  - destruct (applyReferral_cases c code s)
      as [[e ->]|(uid & rid & u & r & _ & _ & Hu & Hfree & _ & _ & _ & Hne
                  & Hr' & [(_ & ->)|(_ & ->)])]; [exact Hsame| |]; cbn [fst].
    + destruct (evolves_insert s (store_with_user rid (rewarded_referrer r) s)
                  rid r (rewarded_referrer r) eq_refl Hr') with (id := id)
                  (u := u0) as (u1 & Hu1 & Hev1); [|exact Hu0|].
      { unfold evolves, rewarded_referrer. cbn.
        repeat split; try reflexivity; lia. }
      destruct (evolves_insert (store_with_user rid (rewarded_referrer r) s)
                  (store_with_user uid (linked_referee rid u)
                     (store_with_user rid (rewarded_referrer r) s))
                  uid u (linked_referee rid u) eq_refl) with (id := id)
                  (u := u1) as (u2 & Hu2 & Hev2); [| |exact Hu1|].
      { cbn [store_with_user users]. now rewrite lookup_insert_ne. }
      { unfold evolves, linked_referee. cbn.
        repeat split; try reflexivity; try lia. congruence. }
      exists u2. split; [exact Hu2|]. now apply evolves_trans with u1.
    + eapply evolves_insert; [reflexivity|exact Hu| |exact Hu0].
      unfold evolves. cbn. repeat split; try reflexivity; try lia. congruence.
  - destruct (checkReferralBonus_cases c s) as [->|(uid & rid & r & Hr' & ->)];
      [exact Hsame|].
    eapply evolves_insert; [reflexivity|exact Hr'| |exact Hu0].
    unfold evolves, credited_referrer. cbn. repeat split; try reflexivity; lia.
  - destruct (depositBoost_cases c a s)
      as [[e ->]|(uid & u & _ & Hu & Hmin & ->)]; [exact Hsame|].
    eapply evolves_insert; [reflexivity|exact Hu| |exact Hu0].
    pose proof (floor_half_nonneg a Hmin).
    unfold evolves. cbn. repeat split; try reflexivity; lia.
  - destruct (requestWithdrawal_cases c now a e f s)
      as [->|(uid & u & Hu & _ & ->)]; [exact Hsame|].
    eapply evolves_insert; [reflexivity|exact Hu| |exact Hu0].
    unfold evolves. cbn. repeat split; try reflexivity; lia.
  - rewrite processWithdrawal_users. exact Hsame.
Qed.

(** Whatever requests are served after signup, in whatever order, a stored
    record is never deleted and keeps its id, email, name, base rate,
    referral code, creation time and eligibility time; its
    [depositBoostCap] and [referralCount] never go down; and its
    [referredBy], once set, never changes. *)
Theorem serve_all_evolves (rs : list Request) (T : Z) (s : Store) :
  no_signup rs ->
  forall (id : string) (u : User), users s !! id = Some u ->
    exists u', users (serve_all rs T s).2 !! id = Some u' /\ evolves u u'.
Proof.
  revert T s. induction rs as [|r rest IH]; intros T s Hno id u Hu.
  - exists u. split; [exact Hu|apply evolves_refl].
  - assert (H1 : no_signup [r]) by (destruct r; try exact I; destruct Hno).
    assert (H2 : no_signup rest) by (destruct r; try exact Hno; destruct Hno).
    destruct (serve_evolves r s H1 id u Hu) as (u1 & Hu1 & Hev1).
    destruct (IH (clock_after T r) (serve r s) H2 id u1 Hu1)
      as (u2 & Hu2 & Hev2).
    exists u2. split; [exact Hu2|]. now apply evolves_trans with u1.
Qed.

Lemma serve_all_evolves_witness :
  exists u',
    users (serve_all sample_session_unlinked 0 referral_store).2
      !! "9f8e7d6c-host" = Some u'
    /\ evolves referrer_user u'.
Proof.
  apply (serve_all_evolves sample_session_unlinked 0 referral_store).
  - exact I.
  - reflexivity.
Defined.

(** ** The admin endpoints *)

Lemma scan_all (s : Store) : scan_withdrawals "" s = withdrawals s.
Proof.
  unfold scan_withdrawals. apply map_filter_id.
  intros [|c i] x _; reflexivity.
Qed.

Lemma adminWithdrawals_run (aid : string) (s : Store) :
  truthy aid = true ->
  adminWithdrawals (Some aid) s
  = (s, if isAdmin (users s !! aid) then AdminOk (withdrawals s)
        else AdminAccessRequired).
Proof.
  intros Hid. unfold adminWithdrawals. cbn [truthy_opt str_of].
  rewrite Hid. cbn [negb]. rewrite scan_all.
  now destruct (isAdmin (users s !! aid)).
Qed.

(** Whether an account may use the admin endpoints is decided by its email
    alone: right after signup the account lists every withdrawal if its
    email contains [admin], and is refused otherwise. *)
Theorem signup_admin_by_email (e p n uid : string) (now : Z) (s : Store)
    (He : truthy e = true) (Hp : truthy p = true) (Hn : truthy n = true)
    (Huid : truthy uid = true) :
  let s1 := fst (signup e p n (CreatedUser uid) now s) in
  adminWithdrawals (Some uid) s1
  = (s1, if includes e "admin" then AdminOk (withdrawals s)
         else AdminAccessRequired).
Proof.
  cbv zeta. rewrite (signup_done e p n uid now s He Hp Hn). cbn [fst].
  rewrite adminWithdrawals_run by exact Huid. cbn [users withdrawals].
  rewrite lookup_insert_eq. reflexivity.
Qed.

Lemma signup_admin_by_email_witness :
  let s1 := fst (signup "sysadmin@example.org" "secret" "Sys"
                   (CreatedUser "5e5e5e5e-sys") 9000 admin_store) in
  adminWithdrawals (Some "5e5e5e5e-sys") s1
  = (s1, if includes "sysadmin@example.org" "admin"
         then AdminOk (withdrawals admin_store) else AdminAccessRequired).
Proof.
  apply (signup_admin_by_email "sysadmin@example.org" "secret" "Sys"
           "5e5e5e5e-sys" 9000 admin_store); reflexivity.
Defined.

Lemma processWithdrawal_run (aid key : string) (a : User) (w : Withdrawal)
    (now : Z) (s : Store) :
  truthy aid = true -> users s !! aid = Some a ->
  includes (email a) "admin" = true -> withdrawals s !! key = Some w ->
  processWithdrawal (Some aid) key now s
  = (mkStore (users s) (referrals s) (bonuses s)
       (<[key := mark_completed now w]> (withdrawals s)), AdminOk tt).
Proof.
  intros Hid Ha Hadm Hw. unfold processWithdrawal. cbn [truthy_opt str_of].
  rewrite Hid, Ha. cbn [negb isAdmin]. rewrite Hadm, Hw. reflexivity.
Qed.

(** Processing a withdrawal marks that one record completed and stamps it
    with the server time; the amount, the payee and every other record stay,
    and no user record is touched.  Nothing stops a second processing: it
    succeeds again and overwrites [processedAt]. *)
Theorem processWithdrawal_completes (aid key : string) (a : User)
    (w : Withdrawal) (now : Z) (s : Store)
    (Hid : truthy aid = true) (Ha : users s !! aid = Some a)
    (Hadm : includes (email a) "admin" = true)
    (Hw : withdrawals s !! key = Some w) :
  let out := processWithdrawal (Some aid) key now s in
  snd out = AdminOk tt
  /\ (exists w', withdrawals (fst out) !! key = Some w'
        /\ w_status w' = completed /\ w_processedAt w' = Some now
        /\ w_amount w' = w_amount w /\ w_userId w' = w_userId w
        /\ w_ecocashNumber w' = w_ecocashNumber w
        /\ w_fullName w' = w_fullName w /\ w_requestedAt w' = w_requestedAt w)
  /\ users (fst out) = users s
  /\ (forall key', key' <> key ->
        withdrawals (fst out) !! key' = withdrawals s !! key')
  /\ (forall now2,
        let again := processWithdrawal (Some aid) key now2 (fst out) in
        snd again = AdminOk tt
        /\ exists w'', withdrawals (fst again) !! key = Some w''
             /\ w_processedAt w'' = Some now2).
Proof.
  cbv zeta. rewrite (processWithdrawal_run aid key a w now s Hid Ha Hadm Hw).
  cbn [fst snd users withdrawals].
  split; [reflexivity|].
  split. { exists (mark_completed now w). split; [apply lookup_insert_eq|].
           repeat split. }
  split; [reflexivity|].
  split. { intros key' Hne. now apply lookup_insert_ne. }
  intros now2.
  rewrite (processWithdrawal_run aid key a (mark_completed now w) now2 _ Hid)
    by (try assumption; apply lookup_insert_eq).
  cbn [fst snd withdrawals]. split; [reflexivity|].
  exists (mark_completed now2 (mark_completed now w)).
  split; [apply lookup_insert_eq|reflexivity].
Qed.

Lemma processWithdrawal_completes_witness :
  let out := processWithdrawal (Some "ad000000-adm") "d00d1e55-pay:5000" 7000
               admin_store in
  snd out = AdminOk tt
  /\ (exists w', withdrawals (fst out) !! "d00d1e55-pay:5000" = Some w'
        /\ w_status w' = completed /\ w_processedAt w' = Some 7000)
  /\ users (fst out) = users admin_store.
Proof.
  destruct (processWithdrawal_completes "ad000000-adm" "d00d1e55-pay:5000"
              admin_user
              (pending_withdrawal "d00d1e55-pay" 5000 (num 100) "0771234567"
                 "Pay") 7000 admin_store)
    as (H1 & (w' & Hw' & Hst & Hat & _) & H3 & _); try reflexivity.
  split; [exact H1|]. split; [|exact H3].
  exists w'. split; [exact Hw'|]. split; [exact Hst|exact Hat].
Defined.

(** A caller whose record is missing or whose email does not contain
    [admin] is refused by both admin endpoints, and nothing is written. *)
Theorem admin_refused (caller : option string) (key : string) (now : Z)
    (s : Store) :
  truthy_opt caller = true ->
  isAdmin (users s !! str_of caller) = false ->
  adminWithdrawals caller s = (s, AdminAccessRequired)
  /\ processWithdrawal caller key now s = (s, AdminAccessRequired).
Proof.
  intros Hc Hno. unfold adminWithdrawals, processWithdrawal.
  rewrite Hc, Hno. split; reflexivity.
Qed.

Lemma admin_refused_witness :
  adminWithdrawals (Some "d00d1e55-pay") admin_store
    = (admin_store, AdminAccessRequired)
  /\ processWithdrawal (Some "d00d1e55-pay") "d00d1e55-pay:5000" 7000 admin_store
     = (admin_store, AdminAccessRequired).
Proof.
  apply (admin_refused (Some "d00d1e55-pay") "d00d1e55-pay:5000" 7000
           admin_store); reflexivity.
Defined.

(** ** Listing withdrawals *)

Lemma prefix_append (a b : string) : String.prefix a (a +:+ b) = true.
Proof.
  induction a as [|c r IH]; [now destruct b|].
  change (String.prefix (String c r) (String c (r +:+ b)) = true).
  cbn [String.prefix]. now destruct (Ascii.ascii_dec c c).
Qed.

Lemma append_assoc (a b c : string) : (a +:+ b) +:+ c = a +:+ (b +:+ c).
Proof.
  induction a as [|x r IH]; [reflexivity|].
  change (String x ((r +:+ b) +:+ c) = String x (r +:+ (b +:+ c))).
  now rewrite IH.
Qed.

Lemma own_key_has_prefix (uid : string) (now : Z) :
  String.prefix (uid +:+ ":") (withdrawalKey uid now) = true.
Proof.
  unfold withdrawalKey. rewrite <- append_assoc. apply prefix_append.
Qed.

(** A granted request shows up, as pending, in the requester's own listing
    and in the listing of an administrator, under the key the receipt
    names. *)
Theorem requested_withdrawal_is_listed (uid aid eco full : string)
    (u a : User) (now : Z) (amount : Qc) (s : Store)
    (Hid : truthy uid = true) (Hu : users s !! uid = Some u)
    (Hok : withdrawal_accepted u now amount eco full)
    (Haid : truthy aid = true) (Ha : users s !! aid = Some a)
    (Hne : aid <> uid) (Hadm : includes (email a) "admin" = true) :
  let s1 := fst (requestWithdrawal (Some uid) now amount eco full s) in
  (exists mine, listWithdrawals (Some uid) s1 = (s1, Ok mine)
     /\ mine !! withdrawalKey uid now
        = Some (pending_withdrawal uid now amount eco full))
  /\ (exists all, adminWithdrawals (Some aid) s1 = (s1, AdminOk all)
        /\ all !! withdrawalKey uid now
           = Some (pending_withdrawal uid now amount eco full)).
Proof.
  cbv zeta.
  rewrite (requestWithdrawal_accepted uid u now amount eco full s Hid Hu Hok).
  cbn [fst]. set (s1 := store_after_withdrawal _ _ _ _ _ _ _).
  assert (Hw : withdrawals s1 !! withdrawalKey uid now
               = Some (pending_withdrawal uid now amount eco full))
    by apply lookup_insert_eq.
  split.
  - eexists. split.
    + unfold listWithdrawals. as_caller Hid. reflexivity.
    + unfold scan_withdrawals. apply map_lookup_filter_Some.
      split; [exact Hw|apply own_key_has_prefix].
  - exists (withdrawals s1). split; [|exact Hw].
    rewrite adminWithdrawals_run by exact Haid.
    replace (users s1 !! aid) with (Some a)
      by (subst s1; cbn [store_after_withdrawal users];
          now rewrite lookup_insert_ne by congruence).
    cbn [isAdmin]. now rewrite Hadm.
Qed.

Lemma requested_withdrawal_is_listed_witness :
  let s0 := store_with_user "ad000000-adm" admin_user funded_store in
  let s1 := fst (requestWithdrawal (Some "d00d1e55-pay") 5000 (num 100)
                   "0771234567" "Pay" s0) in
  (exists mine, listWithdrawals (Some "d00d1e55-pay") s1 = (s1, Ok mine)
     /\ mine !! withdrawalKey "d00d1e55-pay" 5000
        = Some (pending_withdrawal "d00d1e55-pay" 5000 (num 100)
                  "0771234567" "Pay"))
  /\ (exists all, adminWithdrawals (Some "ad000000-adm") s1 = (s1, AdminOk all)
        /\ all !! withdrawalKey "d00d1e55-pay" 5000
           = Some (pending_withdrawal "d00d1e55-pay" 5000 (num 100)
                     "0771234567" "Pay")).
Proof.
  apply (requested_withdrawal_is_listed "d00d1e55-pay" "ad000000-adm"
           "0771234567" "Pay" funded_user admin_user 5000 (num 100)
           (store_with_user "ad000000-adm" admin_user funded_store));
    try reflexivity.
  - unfold withdrawal_accepted.
    split; [literals_differ|].
    split; [reflexivity|]. split; [reflexivity|].
    split; [cbn; lia|].
    split; apply Qcleb_le; reflexivity.
  - discriminate.
Defined.

(** * Properties of the client *)

(** For a time that is not negative [formatTime] rounds down to the minute:
    the minutes shown are between 0 and 59, and hours and minutes together
    are the whole minutes of the time. *)
Theorem formatTime_rounds_down (ms : Z) :
  0 <= ms ->
  0 <= formatTime_hours ms
  /\ 0 <= formatTime_minutes ms < 60
  /\ formatTime_hours ms * 60 + formatTime_minutes ms = ms / (1000 * 60)
  /\ formatTime ms
     = pretty (ms / 3600000) +:+ "h " +:+ pretty (ms / 60000 mod 60) +:+ "m".
Proof.
  intros H. unfold formatTime, formatTime_hours, formatTime_minutes.
  rewrite Z.rem_mod_nonneg by lia.
  change (1000 * 60 * 60) with 3600000. change (1000 * 60) with 60000.
  assert (Hm : ms mod 3600000 / 60000 = ms / 60000 mod 60).
  { change 3600000 with (60000 * 60). rewrite Z.rem_mul_r by lia.
    rewrite (Z.mul_comm 60000), Z.div_add by lia.
    rewrite (Z.div_small (ms mod 60000)) by (apply Z.mod_pos_bound; lia).
    reflexivity. }
  rewrite Hm.
  pose proof (Z.mod_pos_bound (ms / 60000) 60 ltac:(lia)).
  pose proof (Z.div_pos ms 3600000 H ltac:(lia)).
  split; [assumption|]. split; [assumption|]. split; [|reflexivity].
  rewrite (Z.div_mod (ms / 60000) 60) at 2 by lia.
  rewrite Z.div_div by lia. change (60000 * 60) with 3600000. lia.
Qed.

Lemma formatTime_rounds_down_witness :
  0 <= formatTime_hours 86399999
  /\ 0 <= formatTime_minutes 86399999 < 60
  /\ formatTime_hours 86399999 * 60 + formatTime_minutes 86399999
     = 86399999 / (1000 * 60)
  /\ formatTime 86399999
     = pretty (86399999 / 3600000) +:+ "h "
       +:+ pretty (86399999 / 60000 mod 60) +:+ "m".
Proof. apply (formatTime_rounds_down 86399999). lia. Defined.

Lemma splash_after_succ (n : nat) :
  splash_after (S n) = (splashTick (splash_after n)).1.
Proof. unfold splash_after. now rewrite Nat.iter_succ. Qed.

(** The splash screen's progress goes up by 2 with each tick and stops at
    100: after [n] ticks it is [min (2 n) 100], and a tick schedules
    [onComplete] exactly when 50 ticks or more have gone before it. *)
Theorem splash_progress (n : nat) :
  splash_after n = Z.min (2 * Z.of_nat n) 100
  /\ ((splashTick (splash_after n)).2 = true <-> (50 <= n)%nat).
Proof.
  assert (H : splash_after n = Z.min (2 * Z.of_nat n) 100).
  { induction n as [|n IH]; [reflexivity|].
    rewrite splash_after_succ, IH. unfold splashTick.
    destruct (Z.leb_spec 100 (Z.min (2 * Z.of_nat n) 100)); cbn [fst]; lia. }
  split; [exact H|]. rewrite H. unfold splashTick.
  destruct (Z.leb_spec 100 (Z.min (2 * Z.of_nat n) 100)); cbn [snd];
    split; intros; try discriminate; try reflexivity; lia.
Qed.

Lemma num_leb (a b : Z) : Qcleb (num a) (num b) = (a <=? b).
Proof.
  destruct (Z.leb_spec a b) as [H|H].
  - apply Qcleb_le. unfold num. exact (proj1 (Z2Qc_inj_le a b) H).
  - destruct (Qcleb (num a) (num b)) eqn:E; [|reflexivity].
    apply Qcleb_le in E. unfold num in E. apply Z2Qc_inj_le in E. lia.
Qed.

Lemma ad_step : (num 100 / num AD_DURATION)%Qc = num 20.
Proof. apply Qc_is_canon. reflexivity. Qed.

Lemma ad_after_succ (n : nat) : ad_after (S n) = adTick (ad_after n).
Proof. unfold ad_after. now rewrite Nat.iter_succ. Qed.

(** The rewarded-ad modal fills by 20 with each tick and can be closed from
    the fifth tick on, not before: after [n] ticks the progress is
    [min (20 n) 100] and [canClose] holds exactly when [n >= 5]. *)
Theorem ad_progress (n : nat) :
  (ad_after n).1 = num (Z.min (20 * Z.of_nat n) 100)
  /\ ((ad_after n).2 = true <-> (5 <= n)%nat).
Proof.
  induction n as [|n [IHp IHc]].
  - split; [reflexivity|]. cbn. split; [discriminate|lia].
  - rewrite ad_after_succ. unfold adTick.
    rewrite IHp, ad_step, num_add, num_leb.
    destruct (Z.leb_spec 100 (Z.min (20 * Z.of_nat n) 100 + 20)) as [H|H];
      cbn [fst snd].
    + split; [f_equal; lia|]. split; [lia|reflexivity].
    + split; [f_equal; lia|]. rewrite IHc. lia.
Qed.

(** ** The profile of a new account *)

(** What a new account sees in its profile right after signup: nothing
    mined, the base rate of 0.0000001 as current rate, no ads watched out of
    50, no referrer, its own referral code, and a first withdrawal seven days
    away. *)
Theorem signup_then_profile (e p n uid : string) (now : Z) (s : Store)
    (He : truthy e = true) (Hp : truthy p = true) (Hn : truthy n = true)
    (Huid : truthy uid = true) :
  let s1 := fst (signup e p n (CreatedUser uid) now s) in
  exists u,
    profile (Some uid) s1 = (s1, Ok u)
    /\ balance u = num 0 /\ totalMined u = num 0
    /\ currentMiningRate u = AD_BOOST_INCREMENT
    /\ baseMiningRate u = AD_BOOST_INCREMENT
    /\ adsWatchedToday u = 0 /\ depositBoostCap u = 50
    /\ referredBy u = None /\ referralCount u = 0
    /\ referralCode u = generateReferralCode uid
    /\ miningStartTime u = now /\ lastResetTime u = now
    /\ withdrawEligibleAt u = now + 7 * DAY_MS.
Proof.
  cbv zeta. rewrite (signup_done e p n uid now s He Hp Hn). cbn [fst].
  exists (initialUser uid e n now). split.
  - unfold profile. as_caller Huid. unfold loadUser, bind, kv_get_user.
    cbn [users]. now rewrite lookup_insert_eq.
  - unfold DAY_MS. cbn [initialUser balance totalMined currentMiningRate
      baseMiningRate adsWatchedToday depositBoostCap referredBy referralCount
      referralCode miningStartTime lastResetTime withdrawEligibleAt].
    repeat split.
Qed.

Lemma signup_then_profile_witness :
  let s1 := fst (signup "new@example.org" "secret" "New"
                   (CreatedUser "c0ffee00-new") 1000 empty_store) in
  exists u,
    profile (Some "c0ffee00-new") s1 = (s1, Ok u)
    /\ balance u = num 0 /\ totalMined u = num 0
    /\ currentMiningRate u = AD_BOOST_INCREMENT
    /\ baseMiningRate u = AD_BOOST_INCREMENT
    /\ adsWatchedToday u = 0 /\ depositBoostCap u = 50
    /\ referredBy u = None /\ referralCount u = 0
    /\ referralCode u = generateReferralCode "c0ffee00-new"
    /\ miningStartTime u = 1000 /\ lastResetTime u = 1000
    /\ withdrawEligibleAt u = 1000 + 7 * DAY_MS.
Proof.
  apply (signup_then_profile "new@example.org" "secret" "New" "c0ffee00-new"
           1000 empty_store); reflexivity.
Defined.
